(** * RenderLayer: the feature store of a 3DuF render layer

    A shallow embedding of [src/app/view/renderLayer.ts].

    - A [RenderLayer] is a record; its [features] field is a JavaScript
      object used as a dictionary from feature ids to [Feature] references.
    - [Feature]s are mutable objects shared between the layer and its
      callers, so they live in a heap addressed by locations; the layer
      stores locations, never copies.
    - Methods run in a small state-and-exception monad over the pair of the
      receiver ([this]) and the heap; a [throw] keeps the state reached so
      far, as a JavaScript exception does.
    - [Feature] and its codecs belong to [../core/feature]; they are taken
      as an interface ([FeatureClass]). *)

From Stdlib Require Import ZArith NArith String Ascii List Lia.
From stdpp Require Import base option list gmap strings.

Local Open Scope Z_scope.

(** ** Ordinary JavaScript objects used as dictionaries

    An object created by [{}]: its own enumerable data properties, kept in
    the order in which [for ... in] visits them: first the keys that are
    array indices, in ascending numeric order, then all other keys in the
    order of their creation.

    Two names inherited from [Object.prototype] matter to a dictionary.
    - An assignment under the key "__proto__" runs the inherited setter: it
      creates no own property ([set]).  What it does to the prototype chain
      is not recorded: the prototype of a layer's [features] only shows in
      [for ... in], which is modelled for an object that inherits no
      enumerable property.
    - [o.hasOwnProperty(k)] looks the method up on [o] first, so an own
      entry named "hasOwnProperty" is found in its place.  [hasOwnProperty]
      below is the inherited method itself; the lookup is with the callers
      ([features_hasOwnProperty]). *)

Module JSObject.

Definition t (V : Type) : Type := list (string * V).

Definition digit (c : ascii) : option N :=
  let n := N_of_ascii c in
  if ((48 <=? n) && (n <=? 57))%N then Some (n - 48)%N else None.

Fixpoint decimal (s : string) (acc : N) : option N :=
  match s with
  | EmptyString => Some acc
  | String c s' =>
      match digit c with
      | Some d => decimal s' (10 * acc + d)%N
      | None => None
      end
  end.

(** A key is an array index when it is the canonical decimal form of an
    integer in [0, 2^32 - 2]. *)
Definition array_index (k : string) : option N :=
  match k with
  | EmptyString => None
  | String c rest =>
      if Ascii.eqb c "0"%char && negb (String.eqb rest EmptyString)
      then None
      else match decimal k 0%N with
           | Some n => if (n <? 4294967295)%N then Some n else None
           | None => None
           end
  end.

Section operations.
Context {V : Type}.

Definition empty : t V := [].

(** [o[k]] *)
Fixpoint get (k : string) (o : t V) : option V :=
  match o with
  | [] => None
  | (k', v) :: o' => if String.eqb k k' then Some v else get k o'
  end.

(** [Object.prototype.hasOwnProperty.call(o, k)] *)
Definition hasOwnProperty (k : string) (o : t V) : bool :=
  match get k o with Some _ => true | None => false end.

(** Assignment to an existing property keeps its position. *)
Fixpoint update (k : string) (v : V) (o : t V) : t V :=
  match o with
  | [] => []
  | (k', v') :: o' =>
      if String.eqb k k' then (k', v) :: o' else (k', v') :: update k v o'
  end.

(** A new array-index key goes among the array indices, in order. *)
Fixpoint place (n : N) (k : string) (v : V) (o : t V) : t V :=
  match o with
  | [] => [(k, v)]
  | (k', v') :: o' =>
      match array_index k' with
      | Some n' =>
          if (n <? n')%N then (k, v) :: o else (k', v') :: place n k v o'
      | None => (k, v) :: o
      end
  end.

(** A new property: any other key goes last. *)
Definition define (k : string) (v : V) (o : t V) : t V :=
  match array_index k with
  | Some n => place n k v o
  | None => o ++ [(k, v)]
  end.

(** Writing an own property: the entry is updated or created. *)
Definition put (k : string) (v : V) (o : t V) : t V :=
  if hasOwnProperty k o then update k v o else define k v o.

(** [o[k] = v].  Under "__proto__" the inherited setter runs instead: no
    own property appears. *)
Definition set (k : string) (v : V) (o : t V) : t V :=
  if String.eqb k "__proto__" then o else put k v o.

(** [delete o[k]] *)
Fixpoint delete (k : string) (o : t V) : t V :=
  match o with
  | [] => []
  | (k', v') :: o' =>
      if String.eqb k k' then delete k o' else (k', v') :: delete k o'
  end.

(** The own keys, as [for (const i in o)] visits them. *)
Definition keys (o : t V) : list string := map fst o.

(** The number of own properties. *)
Definition size (o : t V) : nat := length o.

(** Each key names one property. *)
Definition wf (o : t V) : Prop := NoDup (keys o).

(** No property is named "__proto__": assignment never creates one. *)
Definition unprotoed (o : t V) : Prop := "__proto__"%string ∉ keys o.

End operations.

End JSObject.

(** ** Values, features and the heap *)

Definition loc := positive.

(** The arguments a method can be handed at run time ([any]). *)
Inductive value :=
| VUndefined
| VNull
| VNumber (z : Z)
| VString (s : string)
| VObject (l : loc).

(** [Feature] and [EdgeFeature], the two classes [__ensureIsAFeature] accepts. *)
Inductive feature_class := ClassFeature | ClassEdgeFeature.

(** What [../core/feature] and [../core/init] declare and this file only
    passes around: the rest of a feature's state and its two serial forms. *)
Class FeatureTypes := {
  FeatureState : Type;
  FeatureInterchangeV0 : Type;
  FeatureJSON : Type;
}.

Section model.
Context `{FeatureTypes}.

(** A feature object: [ID] is read by the layer, [layer] is written by it. *)
Record Feature := mkFeature {
  class_of : feature_class;
  ID : string;
  layer : option loc;
  state : FeatureState;
}.

(** [feature.layer = l] *)
Definition set_layer (l : option loc) (f : Feature) : Feature :=
  {| class_of := class_of f; ID := ID f; layer := l; state := state f |}.

(** What the class can observe of an object that is not a feature: the
    property key its [ID] property stands for, if it has one, and whether
    it can be converted to a string (an object made by
    [Object.create(null)] cannot). *)
Record plain := mkPlain {
  plain_ID : option string;
  plain_printable : bool;
}.

(** What a reference can lead to: a feature, or some other object. *)
Inductive object :=
| OFeature (f : Feature)
| OOther (p : plain).

(** The methods of a feature and the static factories of [Feature].  As
    their signatures say, a factory returns a [Feature] for every input of
    its type; the layer allocates the object it returns. *)
Class FeatureClass := {
  Feature_toJSON : Feature -> FeatureJSON;
  Feature_toInterchangeV1 : Feature -> FeatureInterchangeV0;
  Feature_fromJSON : FeatureJSON -> Feature;
  Feature_fromInterchangeV1 : FeatureInterchangeV0 -> Feature;
}.

(** ** The layer *)

(** The fields of the class.  [featureCount] is a JavaScript number that
    only ever holds an integer; it is modelled as an integer, which is
    exact as long as the count stays strictly between -2^53 and 2^53
    ([safe_count] below).  A layer made by the constructor leaves that
    range only after 2^53 calls; the theorems that add or subtract 1 on
    an arbitrary store assume it.  [physicalLayer] refers to a [Layer],
    which the class stores and hands on without looking inside. *)
Record RenderLayer := mkRenderLayer {
  features : JSObject.t loc;
  featureCount : Z;
  color : option string;
  __id : string;
  __type : string;
  name : string;
  _physicalLayer : option loc;
}.

(** [RenderLayerInterchangeV1], as [toInterchangeV1] builds it. *)
Record RenderLayerInterchangeV1 := mkInterchangeV1 {
  iv1_id : string;
  iv1_type : string;
  iv1_group : string;
  iv1_features : list FeatureInterchangeV0;
  iv1_color : option string;
}.

(** The properties [fromJSON] reads from its argument, each possibly
    missing. *)
Record LayerJSON := mkLayerJSON {
  json_type : option string;
  json_features : option (JSObject.t FeatureJSON);
  json_color : option string;
}.

(** The object [toFeatureLayerJSON] returns. *)
Record FeatureLayerJSON := mkFeatureLayerJSON {
  fl_color : option string;
  fl_features : list FeatureInterchangeV0;
}.

(** The four [throw] statements of the class, and the [TypeError] the
    language raises: for a call of something that is not a function, for a
    property read from [null] or [undefined], for a string concatenation
    with a value that has no string conversion. *)
Inductive error :=
| NotAFeature (v : value)
    (* "Provided value" + feature + " is not a Feature! Did you pass an ID by mistake?" *)
| FeatureMissing
    (* "Layer does not contain the specified feature!" *)
| FeatureIDMissing
    (* "Layer does not contain a feature with the specified ID!" *)
| NoFeatures
    (* "JSON layer has no features!" *)
| TypeError.

(** The error kinds the specification names. *)
Inductive error_kind := InvalidArgument | NotFound | MalformedInput | Unnamed.

Definition kind (e : error) : error_kind :=
  match e with
  | NotAFeature _ => InvalidArgument
  | FeatureMissing | FeatureIDMissing => NotFound
  | NoFeatures => MalformedInput
  | TypeError => Unnamed
  end.

(** How a call ends. *)
Inductive outcome (A : Type) :=
| Return (a : A)
| Throw (e : error).
Global Arguments Return {A} a.
Global Arguments Throw {A} e.

Record State := mkState {
  this : RenderLayer;
  heap : gmap loc object;
}.

(** A method body: it runs on the receiver and the heap, and returns or
    throws in the state it has reached. *)
Definition Method (A : Type) : Type := State -> outcome A * State.

#[export] Instance Method_ret : MRet Method := fun A a σ => (Return a, σ).
#[export] Instance Method_bind : MBind Method := fun A B k m σ =>
  match m σ with
  | (Return a, σ') => k a σ'
  | (Throw e, σ') => (Throw e, σ')
  end.

Definition throw {A} (e : error) : Method A := fun σ => (Throw e, σ).
Definition get_this : Method RenderLayer := fun σ => (Return (this σ), σ).
Definition get_heap : Method (gmap loc object) := fun σ => (Return (heap σ), σ).
Definition put_this (r : RenderLayer) : Method unit :=
  fun σ => (Return tt, {| this := r; heap := heap σ |}).
Definition put_heap (h : gmap loc object) : Method unit :=
  fun σ => (Return tt, {| this := this σ; heap := h |}).

(** [for (const x of xs) body(x)], stopping at the first throw. *)
Fixpoint for_each {A} (xs : list A) (body : A -> Method unit) : Method unit :=
  match xs with
  | [] => mret tt
  | x :: xs' => body x ;; for_each xs' body
  end.

(** Field assignments on [this]. *)
Definition set_features (o : JSObject.t loc) (r : RenderLayer) : RenderLayer :=
  {| features := o; featureCount := featureCount r; color := color r;
     __id := __id r; __type := __type r; name := name r;
     _physicalLayer := _physicalLayer r |}.
Definition set_featureCount (n : Z) (r : RenderLayer) : RenderLayer :=
  {| features := features r; featureCount := n; color := color r;
     __id := __id r; __type := __type r; name := name r;
     _physicalLayer := _physicalLayer r |}.
Definition set_color (c : option string) (r : RenderLayer) : RenderLayer :=
  {| features := features r; featureCount := featureCount r; color := c;
     __id := __id r; __type := __type r; name := name r;
     _physicalLayer := _physicalLayer r |}.
Definition set_physicalLayer (l : option loc) (r : RenderLayer) : RenderLayer :=
  {| features := features r; featureCount := featureCount r; color := color r;
     __id := __id r; __type := __type r; name := name r;
     _physicalLayer := l |}.

(** [constructor(name = "New Layer", type = "FLOW", group = "0")]: an
    argument left out or [undefined] ([None]) takes its default.  [group]
    is accepted and not stored.  [uuid] is what [RenderLayer.generateID()],
    that is [uuid.v1()], hands out for this layer. *)
Definition constructor (name type group : option string) (uuid : string)
  : RenderLayer :=
  let name := default "New Layer"%string name in
  let type := default "FLOW"%string type in
  let group := default "0"%string group in
  {| __type := type;
     features := JSObject.empty;
     featureCount := 0;
     name := name;
     color := None;
     __id := uuid;
     _physicalLayer := None |}.

(** [set physicalLayer(layer)] and [get physicalLayer()] *)
Definition physicalLayer_set (l : option loc) : Method unit :=
  r ← get_this; put_this (set_physicalLayer l r).
Definition physicalLayer : Method (option loc) :=
  r ← get_this; mret (_physicalLayer r).

(** [get type()] and [get id()] *)
Definition type : Method string := r ← get_this; mret (__type r).
Definition id : Method string := r ← get_this; mret (__id r).

(** [(feature instanceof Feature) || (feature instanceof EdgeFeature)]:
    only a reference to a feature object passes, and the test gives the
    object it refers to. *)
Definition instanceof_Feature (h : gmap loc object) (v : value)
  : option (loc * Feature) :=
  match v with
  | VObject l =>
      match h !! l with
      | Some (OFeature f) => Some (l, f)
      | _ => None
      end
  | _ => None
  end.

(** Whether ["Provided value" + feature] can be evaluated: every primitive
    has a string conversion, an object may lack one. *)
Definition has_string (h : gmap loc object) (v : value) : bool :=
  match v with
  | VObject l =>
      match h !! l with
      | Some (OOther p) => plain_printable p
      | _ => true
      end
  | _ => true
  end.

(** [__ensureIsAFeature(feature)]; on success the argument is known to be
    a feature, which is returned for the caller to use.  The error's
    message is built first, and building it can fail. *)
Definition __ensureIsAFeature (feature : value) : Method (loc * Feature) :=
  h ← get_heap;
  match instanceof_Feature h feature with
  | Some lf => mret lf
  | None =>
      if has_string h feature then throw (NotAFeature feature)
      else throw TypeError
  end.

(** [this.features.hasOwnProperty(k)]: an entry filed under
    "hasOwnProperty" is found in place of the inherited method, and calling
    a feature is a [TypeError]. *)
Definition features_hasOwnProperty (k : string) : Method bool :=
  r ← get_this;
  if JSObject.hasOwnProperty "hasOwnProperty" (features r)
  then throw TypeError
  else mret (JSObject.hasOwnProperty k (features r)).

Context `{FeatureClass}.

(** [containsFeatureID(featureID)] *)
Definition containsFeatureID (featureID : string) : Method bool :=
  features_hasOwnProperty featureID.

(** [containsFeature(feature)] *)
Definition containsFeature (feature : value) : Method bool :=
  '(_, f) ← __ensureIsAFeature feature;
  features_hasOwnProperty (ID f).

(** [addFeature(feature)] *)
Definition addFeature (feature : value) : Method unit :=
  '(l, f) ← __ensureIsAFeature feature;
  r ← get_this;
  put_this (set_features (JSObject.set (ID f) l (features r)) r);;
  r ← get_this;
  put_this (set_featureCount (featureCount r + 1) r);;
  pl ← physicalLayer;
  h ← get_heap;
  put_heap (<[l := OFeature (set_layer pl f)]> h).

(** [__ensureFeatureExists(feature)] *)
Definition __ensureFeatureExists (feature : value) : Method unit :=
  b ← containsFeature feature;
  if negb b then throw FeatureMissing else mret tt.

(** [__ensureFeatureIDExists(featureID)] *)
Definition __ensureFeatureIDExists (featureID : string) : Method unit :=
  b ← containsFeatureID featureID;
  if negb b then throw FeatureIDMissing else mret tt.

(** [o[k]] as a value: a missing property reads as [undefined]. *)
Definition read (k : string) (o : JSObject.t loc) : value :=
  match JSObject.get k o with
  | Some l => VObject l
  | None => VUndefined
  end.

(** [getFeature(featureID)] *)
Definition getFeature (featureID : string) : Method value :=
  __ensureFeatureIDExists featureID;;
  r ← get_this;
  mret (read featureID (features r)).

(** [removeFeatureByID(featureID)] *)
Definition removeFeatureByID (featureID : string) : Method unit :=
  __ensureFeatureIDExists featureID;;
  r ← get_this;
  let feature := read featureID (features r) in
  put_this (set_featureCount (featureCount r - 1) r);;
  r ← get_this;
  put_this (set_features (JSObject.delete featureID (features r)) r).

(** [feature.ID] used as a property key.  Reading from [null] or
    [undefined] is a [TypeError]; a number or a string has no such
    property, and neither has an object without one: the read gives
    [undefined], whose key is "undefined". *)
Definition read_ID (feature : value) : Method string :=
  h ← get_heap;
  match feature with
  | VUndefined | VNull => throw TypeError
  | VObject l =>
      mret (match h !! l with
            | Some (OFeature f) => ID f
            | Some (OOther p) => default "undefined"%string (plain_ID p)
            | None => "undefined"%string
            end)
  | _ => mret "undefined"%string
  end.

(** [removeFeature(feature)] *)
Definition removeFeature (feature : value) : Method unit :=
  featureID ← read_ID feature;
  removeFeatureByID featureID.

(** [getAllFeaturesFromLayer()] *)
Definition getAllFeaturesFromLayer : Method (JSObject.t loc) :=
  r ← get_this; mret (features r).

(** The receiver of [this.features[i].toJSON()] and of
    [this.features[i].toInterchangeV1()]: the call is a [TypeError] when
    the entry is not a feature. *)
Definition deref (l : loc) : Method Feature :=
  h ← get_heap;
  match h !! l with
  | Some (OFeature f) => mret f
  | _ => throw TypeError
  end.

(** A loop with a local accumulator. *)
Fixpoint fold_each {A B} (xs : list A) (body : B -> A -> Method B) (acc : B)
  : Method B :=
  match xs with
  | [] => mret acc
  | x :: xs' => acc' ← body acc x; fold_each xs' body acc'
  end.

(** [__featuresToJSON()] *)
Definition __featuresToJSON : Method (JSObject.t FeatureJSON) :=
  r ← get_this;
  fold_each (features r)
    (fun output '(i, l) =>
       f ← deref l; mret (JSObject.set i (Feature_toJSON f) output))
    JSObject.empty.

(** [__featuresInterchangeV1()] *)
Definition __featuresInterchangeV1 : Method (list FeatureInterchangeV0) :=
  r ← get_this;
  fold_each (features r)
    (fun output '(i, l) =>
       f ← deref l; mret (output ++ [Feature_toInterchangeV1 f]))
    [].

(** The object a static factory of [Feature] returns is new. *)
Definition new_Feature (f : Feature) : Method value :=
  h ← get_heap;
  let l := fresh (dom h) in
  put_heap (<[l := OFeature f]> h);;
  mret (VObject l).

(** [__loadFeaturesFromJSON(json)] *)
Definition __loadFeaturesFromJSON (json : JSObject.t FeatureJSON) : Method unit :=
  for_each json
    (fun '(i, x) => feature ← new_Feature (Feature_fromJSON x); addFeature feature).

(** [__loadFeaturesFromInterchangeV1(json)]; [json] is an array, visited
    by ascending index. *)
Definition __loadFeaturesFromInterchangeV1 (json : list FeatureInterchangeV0)
  : Method unit :=
  for_each json
    (fun x => feature ← new_Feature (Feature_fromInterchangeV1 x); addFeature feature).

(** [toFeatureLayerJSON()] *)
Definition toFeatureLayerJSON : Method FeatureLayerJSON :=
  r ← get_this;
  fs ← __featuresInterchangeV1;
  mret {| fl_color := color r; fl_features := fs |}.

(** [toInterchangeV1()] *)
Definition toInterchangeV1 : Method RenderLayerInterchangeV1 :=
  r ← get_this;
  fs ← __featuresInterchangeV1;
  mret {| iv1_id := __id r;
          iv1_type := __type r;
          iv1_group := "0";
          iv1_features := fs;
          iv1_color := color r |}.

(** [if (json.color)]: [undefined] and the empty string are falsy. *)
Definition truthy (c : option string) : bool :=
  match c with
  | Some s => negb (String.eqb s EmptyString)
  | None => false
  end.

(** A static method builds its layer and runs that layer's methods on the
    caller's heap. *)
Definition on_new (newLayer : RenderLayer) (body : Method unit)
    (h : gmap loc object) : outcome RenderLayer * gmap loc object :=
  match body {| this := newLayer; heap := h |} with
  | (Return _, σ) => (Return (this σ), heap σ)
  | (Throw e, σ) => (Throw e, heap σ)
  end.

(** [static fromJSON(json)] *)
Definition fromJSON (json : LayerJSON) (uuid : string) (h : gmap loc object)
  : outcome RenderLayer * gmap loc object :=
  match json_features json with
  | None => (Throw NoFeatures, h)
  | Some json_features =>
      let newLayer := constructor (json_type json) None None uuid in
      on_new newLayer
        (__loadFeaturesFromJSON json_features;;
         if truthy (json_color json)
         then r ← get_this; put_this (set_color (json_color json) r)
         else mret tt)
        h
  end.

(** [static fromInterchangeV1(json)] *)
Definition fromInterchangeV1 (json : RenderLayerInterchangeV1) (uuid : string)
    (h : gmap loc object) : outcome RenderLayer * gmap loc object :=
  let newLayer :=
    constructor (Some (iv1_type json)) (Some (iv1_group json)) None uuid in
  on_new newLayer
    (__loadFeaturesFromInterchangeV1 (iv1_features json);;
     if truthy (iv1_color json)
     then r ← get_this; put_this (set_color (iv1_color json) r)
     else mret tt)
    h.

(** The state [addFeature] leaves when its argument is the feature [f]
    at [l]. *)
Definition added (l : loc) (f : Feature) (σ : State) : State :=
  {| this :=
       set_featureCount (featureCount (this σ) + 1)
         (set_features (JSObject.set (ID f) l (features (this σ))) (this σ));
     heap := <[l := OFeature (set_layer (_physicalLayer (this σ)) f)]> (heap σ) |}.

(** The state [removeFeatureByID] leaves when it does not throw. *)
Definition removed (featureID : string) (σ : State) : State :=
  {| this :=
       set_features (JSObject.delete featureID (features (this σ)))
         (set_featureCount (featureCount (this σ) - 1) (this σ));
     heap := heap σ |}.

(** One round of a loading loop: the factory's feature is allocated, then
    added. *)
Definition loaded (f : Feature) (σ : State) : State :=
  added (fresh (dom (heap σ))) f
    {| this := this σ; heap := <[fresh (dom (heap σ)) := OFeature f]> (heap σ) |}.

(** ** Stores that can arise *)

(** Each key of [features] names one entry, no entry is named
    "__proto__", and each entry is a feature object filed under its own
    [ID]: what the declared type [{ [index: string]: Feature }] and
    [addFeature] provide. *)
Definition consistent (σ : State) : Prop :=
  (JSObject.wf (features (this σ)) /\ JSObject.unprotoed (features (this σ))) /\
  forall k l, (k, l) ∈ features (this σ) ->
    exists f, heap σ !! l = Some (OFeature f) /\ ID f = k.

(** Whether an entry of [features] hides the inherited [hasOwnProperty]. *)
Definition shadowed (σ : State) : bool :=
  JSObject.hasOwnProperty "hasOwnProperty" (features (this σ)).

Definition unshadowed (σ : State) : Prop := shadowed σ = false.

(** What [__ensureIsAFeature] throws for a value that is not a feature. *)
Definition rejection (h : gmap loc object) (v : value) : error :=
  if has_string h v then NotAFeature v else TypeError.

(** [featureCount] is in the range where adding and subtracting 1 is exact
    for a JavaScript number. *)
Definition safe_count (σ : State) : Prop :=
  (- 2 ^ 53 < featureCount (this σ) < 2 ^ 53)%Z.

(** [featureCount] is the number of entries of [features]. *)
Definition counted (σ : State) : Prop :=
  featureCount (this σ) = Z.of_nat (JSObject.size (features (this σ))).

(** What a client can do to a layer: call a method that changes it, or
    assign its public [color]. *)
Inductive call :=
| CallAddFeature (feature : value)
| CallRemoveFeature (feature : value)
| CallRemoveFeatureByID (featureID : string)
| CallSetPhysicalLayer (l : option loc)
| AssignColor (c : option string).

Definition run (c : call) : Method unit :=
  match c with
  | CallAddFeature feature => addFeature feature
  | CallRemoveFeature feature => removeFeature feature
  | CallRemoveFeatureByID featureID => removeFeatureByID featureID
  | CallSetPhysicalLayer l => physicalLayer_set l
  | AssignColor c => r ← get_this; put_this (set_color c r)
  end.

(** The states of a layer from its construction on; between two calls the
    client may create features. *)
Inductive reachable : State -> Prop :=
| reachable_new name type group uuid h :
    reachable {| this := constructor name type group uuid; heap := h |}
| reachable_call c σ :
    reachable σ -> reachable (snd (run c σ))
| reachable_new_Feature f σ :
    reachable σ -> reachable (snd (new_Feature f σ)).

(** A call of [addFeature] that counts a feature and creates no entry: its
    ID already has one, or is "__proto__". *)
Definition overwrites (c : call) (σ : State) : bool :=
  match c with
  | CallAddFeature feature =>
      match instanceof_Feature (heap σ) feature with
      | Some (_, f) =>
          JSObject.hasOwnProperty (ID f) (features (this σ))
          || String.eqb (ID f) "__proto__"
      | None => false
      end
  | _ => false
  end.

(** The states of a layer whose client never adds a feature under an ID
    that is already there, nor one whose ID is "__proto__". *)
Inductive reachable_distinct : State -> Prop :=
| distinct_new name type group uuid h :
    reachable_distinct {| this := constructor name type group uuid; heap := h |}
| distinct_call c σ :
    reachable_distinct σ -> overwrites c σ = false ->
    reachable_distinct (snd (run c σ))
| distinct_new_Feature f σ :
    reachable_distinct σ -> reachable_distinct (snd (new_Feature f σ)).

End model.

(** ** A small feature class to run the methods with *)

Module Demo.

(** A feature carries the name of its macro; both serial forms are the
    pair of its id and that name. *)
Definition types : FeatureTypes :=
  {| FeatureState := string;
     FeatureInterchangeV0 := string * string;
     FeatureJSON := string * string |}.

Definition codec : @FeatureClass types :=
  {| Feature_toJSON := fun f : @Feature types => (ID f, state f);
     Feature_toInterchangeV1 := fun f : @Feature types => (ID f, state f);
     Feature_fromJSON := fun j : string * string => mkFeature (H := types) ClassFeature (fst j) None (snd j);
     Feature_fromInterchangeV1 :=
       fun j : string * string => mkFeature (H := types) ClassFeature (fst j) None (snd j) |}.

Definition A : @Feature types := mkFeature (H := types) ClassFeature "f1" None "Channel".
Definition B : @Feature types := mkFeature (H := types) ClassEdgeFeature "f2" None "EDGE".

(** A heap holding [A] and [B], and a new layer "L1" of type "FLOW" on it. *)
Definition h0 : gmap loc (@object types) :=
  <[1%positive := OFeature A]> (<[2%positive := OFeature B]> ∅).

Definition L1 : @State types :=
  {| this := constructor (Some "L1"%string) (Some "FLOW"%string) None "id-1";
     heap := h0 |}.

(** [L1] after [addFeature(A)]. *)
Definition L1_A : @State types := snd (addFeature (VObject 1%positive) L1).

(** [L1] after [addFeature(A); addFeature(B)]. *)
Definition L1_AB : @State types := snd (addFeature (VObject 2%positive) L1_A).


(** What [L1_A] serialises to. *)
Definition json1 : @RenderLayerInterchangeV1 types :=
  @mkInterchangeV1 types "id-1" "FLOW" "0"
    ([("f1"%string, "Channel"%string)] : list (string * string)) None.

(** Legacy input with one feature and a color, and the same without [type]. *)
Definition legacy1 : @LayerJSON types :=
  @mkLayerJSON types (Some "CONTROL"%string)
    (Some ([("f1"%string, ("f1"%string, "Channel"%string))]
           : list (string * (string * string))))
    (Some "#ff0000"%string).

Definition legacy_untyped : @LayerJSON types :=
  @mkLayerJSON types None (Some []) None.

(** Legacy input without [features]. *)
Definition legacy_bare : @LayerJSON types :=
  @mkLayerJSON types (Some "FLOW"%string) None None.

End Demo.

(** More objects for the small layer: a second object with the id of
    [Demo.A], and a layer on a heap that holds all three. *)
Module DemoMore.

Definition A' : @Feature Demo.types :=
  mkFeature (H := Demo.types) ClassFeature "f1" None "Port".

Definition h1 : gmap loc (@object Demo.types) :=
  <[3%positive := OFeature A']> Demo.h0.

Definition K1 : @State Demo.types :=
  {| this := constructor (Some "K1"%string) None None "id-7"; heap := h1 |}.

(** [K1] after [addFeature(A)]. *)
Definition K1_A : @State Demo.types := snd (addFeature (VObject 1%positive) K1).

(** [L1] after [addFeature(A); addFeature(A)]: one entry, counted twice. *)
Definition L1_AA : @State Demo.types :=
  snd (addFeature (VObject 1%positive) Demo.L1_A).

End DemoMore.

(** Features whose IDs are names of [Object.prototype], and an object that
    has no string conversion. *)
Module DemoSpecial.

Definition H : @Feature Demo.types :=
  mkFeature (H := Demo.types) ClassFeature "hasOwnProperty" None "Port".

Definition P : @Feature Demo.types :=
  mkFeature (H := Demo.types) ClassFeature "__proto__" None "Port".

(** [Object.create(null)] *)
Definition bare : plain := {| plain_ID := None; plain_printable := false |}.

Definition h2 : gmap loc (@object Demo.types) :=
  <[4%positive := OFeature H]>
    (<[5%positive := OFeature P]> (<[6%positive := OOther bare]> Demo.h0)).

Definition S0 : @State Demo.types :=
  {| this := constructor (Some "S"%string) None None "id-9"; heap := h2 |}.

(** [S0] after [addFeature(A)], then after [addFeature(H)] as well. *)
Definition S_A : @State Demo.types := snd (addFeature (VObject 1%positive) S0).
Definition S_AH : @State Demo.types := snd (addFeature (VObject 4%positive) S_A).

(** [S0] after [addFeature(P)]. *)
Definition S_P : @State Demo.types := snd (addFeature (VObject 5%positive) S0).

End DemoSpecial.

(** ** Facts about ordinary objects *)

Module JSObjectFacts.
Import JSObject.

Section facts.
Context {V : Type}.
Implicit Types (o : t V) (k : string) (v : V).

Lemma get_None_keys k o : get k o = None <-> k ∉ keys o.
Proof.
  induction o as [|[k' v'] o IH]; simpl.
  - split; [intros _; apply not_elem_of_nil | done].
  - destruct (String.eqb_spec k k') as [->|Hne].
    + split; [done | intros Hn; exfalso; apply Hn; left].
    + rewrite IH, not_elem_of_cons. tauto.
Qed.

Lemma get_Some_elem k v o : get k o = Some v -> (k, v) ∈ o.
Proof.
  induction o as [|[k' v'] o IH]; simpl; [done|].
  destruct (String.eqb_spec k k') as [->|Hne].
  - intros [= ->]. left.
  - intros Hg. right. auto.
Qed.

Lemma elem_get k v o : wf o -> (k, v) ∈ o -> get k o = Some v.
Proof.
  unfold wf, keys.
  induction o as [|[k' v'] o IH]; simpl; intros Hnd Hin.
  - by apply elem_of_nil in Hin.
  - apply NoDup_cons in Hnd as [Hk' Hnd].
    apply elem_of_cons in Hin as [[= -> ->]|Hin].
    + by rewrite String.eqb_refl.
    + destruct (String.eqb_spec k k') as [->|Hne]; [|by apply IH].
      exfalso. apply Hk'. apply list_elem_of_fmap. by exists (k', v).
Qed.

Lemma hasOwnProperty_true k o :
  hasOwnProperty k o = true <-> exists v, get k o = Some v.
Proof.
  unfold hasOwnProperty. destruct (get k o) as [v|]; split; try done.
  - by exists v.
  - by intros [? ?].
Qed.

Lemma hasOwnProperty_false k o :
  hasOwnProperty k o = false <-> get k o = None.
Proof.
  unfold hasOwnProperty. by destruct (get k o).
Qed.

Lemma get_update k k' v o :
  get k' (update k v o) =
  if String.eqb k' k then (match get k o with Some _ => Some v | None => None end)
  else get k' o.
Proof.
  induction o as [|[k0 v0] o IH]; simpl.
  - by destruct (String.eqb k' k).
  - destruct (String.eqb_spec k k0) as [->|Hne]; simpl.
    + by destruct (String.eqb_spec k' k0).
    + rewrite IH. destruct (String.eqb_spec k' k) as [->|Hne'].
      * by destruct (String.eqb_spec k k0).
      * done.
Qed.

Lemma get_app k o1 o2 :
  get k (o1 ++ o2) = match get k o1 with Some v => Some v | None => get k o2 end.
Proof.
  induction o1 as [|[k0 v0] o1 IH]; simpl; [done|].
  by destruct (String.eqb k k0).
Qed.

Lemma get_place n k k' v o :
  get k o = None ->
  get k' (place n k v o) = if String.eqb k' k then Some v else get k' o.
Proof.
  induction o as [|[k0 v0] o IH]; simpl; [done|].
  destruct (String.eqb_spec k k0) as [->|Hne]; [done|]. intros Hk.
  destruct (array_index k0) as [n0|]; [destruct (n <? n0)%N|]; simpl; try done.
  rewrite IH by done.
  destruct (String.eqb_spec k' k0) as [->|]; [|done].
  destruct (String.eqb_spec k0 k); congruence.
Qed.

Lemma get_define k k' v o :
  get k o = None ->
  get k' (define k v o) = if String.eqb k' k then Some v else get k' o.
Proof.
  intros Hk. unfold define. destruct (array_index k) as [n|].
  - by apply get_place.
  - rewrite get_app. simpl.
    destruct (String.eqb_spec k' k) as [->|]; [by rewrite Hk|].
    by destruct (get k' o).
Qed.

Lemma get_put k k' v o :
  get k' (put k v o) = if String.eqb k' k then Some v else get k' o.
Proof.
  unfold put, hasOwnProperty. destruct (get k o) as [v0|] eqn:Hk.
  - rewrite get_update, Hk. done.
  - by apply get_define.
Qed.

(** Reading after an assignment: the key "__proto__" reads as before. *)
Lemma get_set k k' v o :
  get k' (set k v o) =
  if String.eqb k "__proto__" then get k' o
  else if String.eqb k' k then Some v else get k' o.
Proof.
  unfold set. destruct (String.eqb k "__proto__"); [done|apply get_put].
Qed.

Lemma get_set_eq k v o : k <> "__proto__"%string -> get k (set k v o) = Some v.
Proof.
  intros Hk. rewrite get_set, String.eqb_refl.
  by destruct (String.eqb_spec k "__proto__").
Qed.

Lemma get_set_ne k k' v o : k' <> k -> get k' (set k v o) = get k' o.
Proof.
  intros Hne. rewrite get_set. destruct (String.eqb k "__proto__"); [done|].
  by destruct (String.eqb_spec k' k).
Qed.

Lemma set_proto v o : set "__proto__" v o = o.
Proof. done. Qed.

Lemma get_delete k k' o :
  get k' (delete k o) = if String.eqb k' k then None else get k' o.
Proof.
  induction o as [|[k0 v0] o IH]; simpl.
  - by destruct (String.eqb k' k).
  - destruct (String.eqb_spec k k0) as [->|Hne]; simpl.
    + rewrite IH. by destruct (String.eqb_spec k' k0).
    + rewrite IH. destruct (String.eqb_spec k' k0) as [->|]; [|done].
      destruct (String.eqb_spec k0 k); congruence.
Qed.

Lemma get_delete_eq k o : get k (delete k o) = None.
Proof. by rewrite get_delete, String.eqb_refl. Qed.

Lemma get_delete_ne k k' o : k' <> k -> get k' (delete k o) = get k' o.
Proof.
  intros Hne. rewrite get_delete. by destruct (String.eqb_spec k' k).
Qed.

(** *** The shape of the property list *)

Lemma keys_update k v o : keys (update k v o) = keys o.
Proof.
  unfold keys. induction o as [|[k0 v0] o IH]; simpl; [done|].
  destruct (String.eqb k k0); simpl; congruence.
Qed.

Lemma keys_place n k v o : keys (place n k v o) ≡ₚ k :: keys o.
Proof.
  unfold keys. induction o as [|[k0 v0] o IH]; simpl; [done|].
  destruct (array_index k0) as [n0|]; [destruct (n <? n0)%N|]; simpl; try done.
  rewrite IH. apply Permutation_swap.
Qed.

Lemma keys_define k v o : keys (define k v o) ≡ₚ k :: keys o.
Proof.
  unfold define. destruct (array_index k) as [n|]; [apply keys_place|].
  unfold keys. rewrite map_app. simpl.
  by rewrite Permutation_app_comm.
Qed.

Lemma wf_empty : wf (@empty V).
Proof. apply NoDup_nil_2. Qed.

Lemma wf_set k v o : wf o -> wf (set k v o).
Proof.
  unfold wf, set, put. intros Hnd.
  destruct (String.eqb k "__proto__"); [done|].
  destruct (hasOwnProperty k o) eqn:Hk.
  - by rewrite keys_update.
  - rewrite keys_define. apply NoDup_cons. split; [|done].
    by apply get_None_keys, hasOwnProperty_false.
Qed.

Lemma unprotoed_get o : unprotoed o <-> get "__proto__" o = None.
Proof. symmetry. apply get_None_keys. Qed.

Lemma unprotoed_empty : unprotoed (@empty V).
Proof. apply not_elem_of_nil. Qed.

Lemma unprotoed_set k v o : unprotoed o -> unprotoed (set k v o).
Proof.
  rewrite !unprotoed_get. intros Ho. rewrite get_set.
  destruct (String.eqb_spec k "__proto__") as [->|Hk]; [done|].
  destruct (String.eqb_spec "__proto__" k) as [<-|]; [done|done].
Qed.

Lemma delete_absent k o : get k o = None -> delete k o = o.
Proof.
  induction o as [|[k0 v0] o IH]; simpl; [done|].
  destruct (String.eqb k k0); [done|]. intros Hk. by rewrite IH.
Qed.

Lemma keys_delete_sub k o : keys (delete k o) `sublist_of` keys o.
Proof.
  unfold keys. induction o as [|[k0 v0] o IH]; simpl; [done|].
  destruct (String.eqb k k0); simpl.
  - by apply sublist_cons.
  - by apply sublist_skip.
Qed.

Lemma wf_delete k o : wf o -> wf (delete k o).
Proof. unfold wf. intros Hnd. apply (sublist_NoDup (keys (delete k o)) (keys o)); [done|apply keys_delete_sub]. Qed.

Lemma unprotoed_delete k o : unprotoed o -> unprotoed (delete k o).
Proof.
  rewrite !unprotoed_get. intros Ho. rewrite get_delete.
  by destruct (String.eqb "__proto__" k).
Qed.

Lemma size_update k v o : size (update k v o) = size o.
Proof.
  unfold size. rewrite <- (length_map fst (update k v o)), <- (length_map fst o).
  f_equal. apply keys_update.
Qed.

Lemma size_define k v o : size (define k v o) = S (size o).
Proof.
  unfold size. rewrite <- (length_map fst (define k v o)), <- (length_map fst o).
  change (length (keys (define k v o)) = length (k :: keys o)).
  by rewrite keys_define.
Qed.

(** Writing under a key that is already there adds no property. *)
Lemma size_set_present k v o :
  hasOwnProperty k o = true -> size (set k v o) = size o.
Proof.
  unfold set, put. intros ->.
  destruct (String.eqb k "__proto__"); [done|apply size_update].
Qed.

Lemma size_set_absent k v o :
  k <> "__proto__"%string ->
  hasOwnProperty k o = false -> size (set k v o) = S (size o).
Proof.
  unfold set, put. intros Hk ->.
  destruct (String.eqb_spec k "__proto__"); [done|apply size_define].
Qed.

(** An assignment adds an entry exactly when the key is new and is not
    "__proto__". *)
Lemma size_set k v o :
  size (set k v o) =
  if hasOwnProperty k o || String.eqb k "__proto__" then size o else S (size o).
Proof.
  destruct (hasOwnProperty k o) eqn:Ho; simpl.
  - by apply size_set_present.
  - destruct (String.eqb_spec k "__proto__") as [->|Hk]; [done|].
    by apply size_set_absent.
Qed.

Lemma size_delete_present k o :
  wf o -> hasOwnProperty k o = true -> S (size (delete k o)) = size o.
Proof.
  unfold wf, keys, size.
  induction o as [|[k0 v0] o IH]; simpl; intros Hnd Hk; [done|].
  apply NoDup_cons in Hnd as [Hk0 Hnd].
  unfold hasOwnProperty in Hk. simpl in Hk.
  destruct (String.eqb_spec k k0) as [->|Hne].
  - rewrite delete_absent; [done|]. by apply get_None_keys.
  - simpl. f_equal. apply IH; [done|]. done.
Qed.

Lemma size_delete_absent k o :
  hasOwnProperty k o = false -> size (delete k o) = size o.
Proof.
  intros Hk. rewrite delete_absent; [done|]. by apply hasOwnProperty_false.
Qed.

End facts.

End JSObjectFacts.

(** ** What each method computes *)

Ltac run_method :=
  unfold mbind, Method_bind, mret, Method_ret, throw,
    get_this, get_heap, put_this, put_heap; simpl.

Section methods.
Context `{FeatureClass}.
Implicit Types (σ : State) (v : value) (l : loc) (f : Feature).

Lemma State_eta σ : {| this := this σ; heap := heap σ |} = σ.
Proof. by destruct σ. Qed.

Lemma __ensureIsAFeature_eq v σ :
  __ensureIsAFeature v σ =
  match instanceof_Feature (heap σ) v with
  | Some lf => (Return lf, σ)
  | None => (Throw (rejection (heap σ) v), σ)
  end.
Proof.
  unfold __ensureIsAFeature, rejection. run_method.
  destruct (instanceof_Feature (heap σ) v); [done|].
  by destruct (has_string (heap σ) v).
Qed.

Lemma addFeature_eq v σ :
  addFeature v σ =
  match instanceof_Feature (heap σ) v with
  | Some (l, f) => (Return tt, added l f σ)
  | None => (Throw (rejection (heap σ) v), σ)
  end.
Proof.
  unfold addFeature. unfold mbind at 1. unfold Method_bind at 1.
  rewrite __ensureIsAFeature_eq.
  destruct (instanceof_Feature (heap σ) v) as [[l f]|]; [|done].
  unfold physicalLayer. run_method. done.
Qed.

Lemma features_hasOwnProperty_eq k σ :
  features_hasOwnProperty k σ =
  if shadowed σ then (Throw TypeError, σ)
  else (Return (JSObject.hasOwnProperty k (features (this σ))), σ).
Proof.
  unfold features_hasOwnProperty, shadowed. run_method.
  by destruct (JSObject.hasOwnProperty "hasOwnProperty" (features (this σ))).
Qed.

Lemma containsFeatureID_eq featureID σ :
  containsFeatureID featureID σ =
  if shadowed σ then (Throw TypeError, σ)
  else (Return (JSObject.hasOwnProperty featureID (features (this σ))), σ).
Proof. apply features_hasOwnProperty_eq. Qed.

Lemma containsFeature_eq v σ :
  containsFeature v σ =
  match instanceof_Feature (heap σ) v with
  | Some (l, f) =>
      if shadowed σ then (Throw TypeError, σ)
      else (Return (JSObject.hasOwnProperty (ID f) (features (this σ))), σ)
  | None => (Throw (rejection (heap σ) v), σ)
  end.
Proof.
  unfold containsFeature. unfold mbind at 1. unfold Method_bind at 1.
  rewrite __ensureIsAFeature_eq.
  destruct (instanceof_Feature (heap σ) v) as [[l f]|]; [|done].
  apply features_hasOwnProperty_eq.
Qed.

Lemma __ensureFeatureIDExists_eq featureID σ :
  __ensureFeatureIDExists featureID σ =
  if shadowed σ then (Throw TypeError, σ)
  else if JSObject.hasOwnProperty featureID (features (this σ))
       then (Return tt, σ) else (Throw FeatureIDMissing, σ).
Proof.
  unfold __ensureFeatureIDExists. unfold mbind at 1. unfold Method_bind at 1.
  rewrite containsFeatureID_eq. destruct (shadowed σ); [done|].
  by destruct (JSObject.hasOwnProperty featureID (features (this σ))).
Qed.

Lemma getFeature_eq featureID σ :
  getFeature featureID σ =
  if shadowed σ then (Throw TypeError, σ)
  else match JSObject.get featureID (features (this σ)) with
       | Some l => (Return (VObject l), σ)
       | None => (Throw FeatureIDMissing, σ)
       end.
Proof.
  unfold getFeature. unfold mbind at 1. unfold Method_bind at 1.
  rewrite __ensureFeatureIDExists_eq. destruct (shadowed σ); [done|].
  unfold JSObject.hasOwnProperty, read.
  destruct (JSObject.get featureID (features (this σ))) eqn:E;
    run_method; by rewrite ?E.
Qed.

Lemma removeFeatureByID_eq featureID σ :
  removeFeatureByID featureID σ =
  if shadowed σ then (Throw TypeError, σ)
  else if JSObject.hasOwnProperty featureID (features (this σ))
       then (Return tt, removed featureID σ) else (Throw FeatureIDMissing, σ).
Proof.
  unfold removeFeatureByID. unfold mbind at 1. unfold Method_bind at 1.
  rewrite __ensureFeatureIDExists_eq. destruct (shadowed σ); [done|].
  destruct (JSObject.hasOwnProperty featureID (features (this σ)));
    run_method; done.
Qed.

End methods.

(** ** Adding, finding and removing a feature *)

Section store_operations.
Context `{FeatureClass}.
Implicit Types (σ : State) (v : value) (l : loc) (f : Feature).

Lemma instanceof_Feature_lookup v l f (h : gmap loc object) :
  instanceof_Feature h v = Some (l, f) ->
  v = VObject l /\ h !! l = Some (OFeature f).
Proof.
  destruct v as [| | | |l0]; try done. simpl.
  destruct (h !! l0) as [[f0|p]|] eqn:E; try done.
  by intros [= -> ->].
Qed.

Lemma shadowed_added l f σ :
  ID f <> "hasOwnProperty"%string ->
  shadowed (added l f σ) = shadowed σ.
Proof.
  intros Hid. unfold shadowed, JSObject.hasOwnProperty. simpl.
  by rewrite JSObjectFacts.get_set_ne.
Qed.

(** X18.  Take a feature [f] at [l] whose ID is neither "__proto__" nor
    "hasOwnProperty", a store without an entry named "hasOwnProperty", and
    a [featureCount] in the exact range.  Then [addFeature(feature)]
    returns; afterwards [containsFeature(feature)] is true, [featureCount]
    is one more than before, [features] holds the very reference [l] under
    [f]'s ID, and the feature's [layer] is the store's physical layer. *)
Theorem addFeature_valid v l f σ :
  instanceof_Feature (heap σ) v = Some (l, f) ->
  ID f <> "__proto__"%string ->
  ID f <> "hasOwnProperty"%string ->
  unshadowed σ ->
  safe_count σ ->
  exists σ',
    addFeature v σ = (Return tt, σ') /\
    containsFeature v σ' = (Return true, σ') /\
    featureCount (this σ') = featureCount (this σ) + 1 /\
    JSObject.get (ID f) (features (this σ')) = Some l /\
    exists f',
      heap σ' !! l = Some (OFeature f') /\
      ID f' = ID f /\
      physicalLayer σ' = (Return (layer f'), σ') /\
      layer f' = _physicalLayer (this σ).
Proof.
  intros Hv Hproto Hown Hsh _. exists (added l f σ).
  assert (Hv' : instanceof_Feature (heap (added l f σ)) v
                = Some (l, set_layer (_physicalLayer (this σ)) f)).
  { apply instanceof_Feature_lookup in Hv as [-> _]. simpl.
    by rewrite lookup_insert_eq. }
  split; [by rewrite addFeature_eq, Hv|].
  split.
  { rewrite containsFeature_eq, Hv', shadowed_added, Hsh by done. simpl.
    unfold JSObject.hasOwnProperty.
    by rewrite JSObjectFacts.get_set_eq. }
  split; [done|].
  split; [by apply JSObjectFacts.get_set_eq|].
  exists (set_layer (_physicalLayer (this σ)) f).
  split; [apply lookup_insert_eq|]. done.
Qed.

(** X19.  [removeFeatureByID(id)] on a store with an entry named
    "hasOwnProperty" throws a [TypeError] and changes nothing.  On any
    other store it throws "Layer does not contain a feature with the
    specified ID!" and changes nothing when [features] has no entry for
    [id]; when it has one, the call returns, that entry is gone, the others
    stay, and [featureCount] is one less.  Run right after [addFeature] of
    a feature with that ID (not "__proto__" nor "hasOwnProperty"), it
    brings [featureCount] back to its value before the add, and
    [containsFeatureID(id)] is false.  The count is taken in the exact
    range. *)
Theorem removeFeatureByID_spec featureID σ :
  (shadowed σ = true ->
     removeFeatureByID featureID σ = (Throw TypeError, σ)) /\
  (unshadowed σ ->
   JSObject.hasOwnProperty featureID (features (this σ)) = false ->
     removeFeatureByID featureID σ = (Throw FeatureIDMissing, σ) /\
     kind FeatureIDMissing = NotFound) /\
  (unshadowed σ -> safe_count σ ->
   JSObject.hasOwnProperty featureID (features (this σ)) = true ->
     exists σ',
       removeFeatureByID featureID σ = (Return tt, σ') /\
       JSObject.get featureID (features (this σ')) = None /\
       (forall k, k <> featureID ->
          JSObject.get k (features (this σ')) = JSObject.get k (features (this σ))) /\
       featureCount (this σ') = featureCount (this σ) - 1 /\
       heap σ' = heap σ) /\
  (unshadowed σ -> safe_count σ ->
   forall v l f,
     instanceof_Feature (heap σ) v = Some (l, f) -> ID f = featureID ->
     featureID <> "__proto__"%string -> featureID <> "hasOwnProperty"%string ->
     exists σ1 σ2,
       addFeature v σ = (Return tt, σ1) /\
       removeFeatureByID featureID σ1 = (Return tt, σ2) /\
       featureCount (this σ2) = featureCount (this σ) /\
       containsFeatureID featureID σ2 = (Return false, σ2)).
Proof.
  split; [|split; [|split]].
  - intros Hsh. by rewrite removeFeatureByID_eq, Hsh.
  - intros Hsh Habs. by rewrite removeFeatureByID_eq, Hsh, Habs.
  - intros Hsh _ Hpre. exists (removed featureID σ).
    split; [by rewrite removeFeatureByID_eq, Hsh, Hpre|].
    split; [apply JSObjectFacts.get_delete_eq|].
    split; [intros k Hk; by apply JSObjectFacts.get_delete_ne|].
    done.
  - intros Hsh _ v l f Hv <- Hproto Hown.
    exists (added l f σ), (removed (ID f) (added l f σ)).
    split; [by rewrite addFeature_eq, Hv|].
    split.
    { rewrite removeFeatureByID_eq, shadowed_added, Hsh by done. simpl.
      unfold JSObject.hasOwnProperty. by rewrite JSObjectFacts.get_set_eq. }
    split; [simpl; lia|].
    rewrite containsFeatureID_eq.
    assert (shadowed (removed (ID f) (added l f σ)) = false) as ->.
    { unfold shadowed, JSObject.hasOwnProperty. simpl.
      rewrite JSObjectFacts.get_delete_ne, JSObjectFacts.get_set_ne by done.
      exact Hsh. }
    simpl. unfold JSObject.hasOwnProperty. by rewrite JSObjectFacts.get_delete_eq.
Qed.

(** X20.  [getFeature(id)] never changes anything.  On a store with an
    entry named "hasOwnProperty" it throws a [TypeError]; on any other
    store it throws (NotFound) exactly when [features] has no entry for
    [id], and otherwise returns the reference kept in [features], not a
    copy. *)
Theorem getFeature_spec featureID σ :
  snd (getFeature featureID σ) = σ /\
  fst (getFeature featureID σ) =
    (if shadowed σ then Throw TypeError
     else match JSObject.get featureID (features (this σ)) with
          | Some l => Return (VObject l)
          | None => Throw FeatureIDMissing
          end) /\
  (unshadowed σ ->
     ((exists e, fst (getFeature featureID σ) = Throw e) <->
        JSObject.get featureID (features (this σ)) = None) /\
     (forall e, fst (getFeature featureID σ) = Throw e -> kind e = NotFound)).
Proof.
  rewrite getFeature_eq. unfold unshadowed.
  destruct (shadowed σ); [done|].
  destruct (JSObject.get featureID (features (this σ))) as [l|]; simpl.
  - split; [done|]. split; [done|]. intros _.
    split; [split; [by intros [e ?]|done] | done].
  - split; [done|]. split; [done|]. intros _.
    split; [split; [done|by exists FeatureIDMissing] | by intros e [= <-]].
Qed.


End store_operations.

(** ** The loops *)

Section loops.
Context `{FeatureClass}.
Implicit Types (σ : State) (v : value) (l : loc) (f : Feature).

Lemma bind_run {A B} (m : Method A) (k : A -> Method B) σ :
  (m ≫= k) σ =
  match m σ with
  | (Return a, σ') => k a σ'
  | (Throw e, σ') => (Throw e, σ')
  end.
Proof. done. Qed.

Lemma deref_eq l σ :
  deref l σ =
  match heap σ !! l with
  | Some (OFeature f) => (Return f, σ)
  | _ => (Throw TypeError, σ)
  end.
Proof.
  unfold deref. run_method. by destruct (heap σ !! l) as [[f|p]|].
Qed.

Lemma for_each_ext {A} (xs : list A) (b1 b2 : A -> Method unit) σ :
  (forall x τ, b1 x τ = b2 x τ) ->
  for_each xs b1 σ = for_each xs b2 σ.
Proof.
  intros Hb. revert σ. induction xs as [|x xs IH]; intros σ; simpl; [done|].
  run_method. rewrite Hb. destruct (b2 x σ) as [[[]|e] τ]; [apply IH|done].
Qed.

Lemma load_one f σ :
  (feature ← new_Feature f; addFeature feature) σ = (Return tt, loaded f σ).
Proof.
  unfold new_Feature. run_method. rewrite addFeature_eq. simpl.
  by rewrite lookup_insert_eq.
Qed.

Lemma fresh_loc_unused (h : gmap loc object) : h !! fresh (dom h) = None.
Proof. apply not_elem_of_dom. apply is_fresh. Qed.

Lemma loaded_heap_incl f σ l o :
  heap σ !! l = Some o -> heap (loaded f σ) !! l = Some o.
Proof.
  intros Hl. simpl.
  assert (l <> fresh (dom (heap σ))) as Hne.
  { intros ->. by rewrite fresh_loc_unused in Hl. }
  by rewrite !lookup_insert_ne.
Qed.

(** What a loading loop leaves behind, whatever the factory [g]. *)
Lemma load_spec {A} (g : A -> Feature) (xs : list A) σ :
  exists σ',
    for_each xs (fun x => feature ← new_Feature (g x); addFeature feature) σ
      = (Return tt, σ') /\
    (color (this σ') = color (this σ) /\ __id (this σ') = __id (this σ) /\
     __type (this σ') = __type (this σ) /\ name (this σ') = name (this σ) /\
     _physicalLayer (this σ') = _physicalLayer (this σ)) /\
    featureCount (this σ') = featureCount (this σ) + Z.of_nat (length xs) /\
    (forall l o, heap σ !! l = Some o -> heap σ' !! l = Some o) /\
    (forall k, JSObject.hasOwnProperty k (features (this σ)) = true ->
       JSObject.hasOwnProperty k (features (this σ')) = true) /\
    (forall x, x ∈ xs -> ID (g x) <> "__proto__"%string ->
       JSObject.hasOwnProperty (ID (g x)) (features (this σ')) = true) /\
    (forall k l, JSObject.get k (features (this σ')) = Some l ->
       JSObject.get k (features (this σ)) = Some l \/
       exists x, x ∈ xs /\ ID (g x) = k /\
         heap σ' !! l = Some (OFeature (set_layer (_physicalLayer (this σ)) (g x)))) /\
    (JSObject.wf (features (this σ)) -> JSObject.wf (features (this σ'))) /\
    (JSObject.unprotoed (features (this σ)) ->
     JSObject.unprotoed (features (this σ'))).
Proof.
  revert σ. induction xs as [|x xs IH]; intros σ.
  - exists σ. simpl. split; [done|]. split; [done|]. split; [lia|].
    split; [done|]. split; [done|].
    split; [by intros x Hx%elem_of_nil|]. split; [by left|done].
  - destruct (IH (loaded (g x) σ))
      as (σ' & Hrun & (Hc & Hi & Ht & Hn & Hp) & Hcount & Hheap & Hown & Hin
          & Hget & Hwf & Hup).
    exists σ'. split.
    { simpl. unfold mbind at 1. unfold Method_bind at 1. by rewrite load_one. }
    split; [by rewrite Hc, Hi, Ht, Hn, Hp|].
    split; [rewrite Hcount; simpl; lia|].
    split; [intros l o Hl; by apply Hheap, loaded_heap_incl|].
    split.
    { intros k Hk. apply Hown. simpl.
      apply JSObjectFacts.hasOwnProperty_true in Hk as [l0 Hk].
      apply JSObjectFacts.hasOwnProperty_true.
      rewrite JSObjectFacts.get_set.
      destruct (String.eqb (ID (g x)) "__proto__"); [eauto|].
      destruct (String.eqb k (ID (g x))); eauto. }
    split.
    { intros y [->|Hy]%elem_of_cons Hproto; [|by apply Hin].
      apply Hown. simpl. unfold JSObject.hasOwnProperty.
      by rewrite JSObjectFacts.get_set_eq. }
    split;
      [|split; [intros Hσ; by apply Hwf, JSObjectFacts.wf_set
               |intros Hσ; by apply Hup, JSObjectFacts.unprotoed_set]].
    intros k l Hk. destruct (Hget k l Hk) as [Hold|(y & Hy & Hid & Hl)].
    + simpl in Hold. rewrite JSObjectFacts.get_set in Hold.
      destruct (String.eqb (ID (g x)) "__proto__"); [by left|].
      destruct (String.eqb_spec k (ID (g x))) as [->|Hne]; [|by left].
      injection Hold as <-. right. exists x.
      split; [left|]. split; [done|].
      apply Hheap. simpl. by rewrite lookup_insert_eq.
    + right. exists y. split; [by right|]. split; [done|].
      exact Hl.
Qed.


End loops.

(** ** Invariants of a store *)

Section invariants.
Context `{FeatureClass}.
Implicit Types (σ : State) (v : value) (l : loc) (f : Feature).

Lemma consistent_new name type group uuid (h : gmap loc object) :
  consistent {| this := constructor name type group uuid; heap := h |}.
Proof.
  split; [split; [apply JSObjectFacts.wf_empty|apply JSObjectFacts.unprotoed_empty]|].
  intros k l Hin. by apply elem_of_nil in Hin.
Qed.

Lemma consistent_added v l f σ :
  instanceof_Feature (heap σ) v = Some (l, f) ->
  consistent σ -> consistent (added l f σ).
Proof.
  intros [_ Hl]%instanceof_Feature_lookup [[Hwf Hup] Hent].
  assert (Hwf' : JSObject.wf (features (this (added l f σ))))
    by apply JSObjectFacts.wf_set, Hwf.
  split; [split; [done|by apply JSObjectFacts.unprotoed_set]|].
  intros k' l' Hin.
  apply JSObjectFacts.elem_get in Hin; [|done]. simpl in Hin.
  rewrite JSObjectFacts.get_set in Hin. simpl.
  assert (Hold : JSObject.get k' (features (this σ)) = Some l' ->
            exists f0, <[l:=OFeature (set_layer (_physicalLayer (this σ)) f)]>
                         (heap σ) !! l' = Some (OFeature f0) /\ ID f0 = k').
  { intros Hk.
    apply JSObjectFacts.get_Some_elem, Hent in Hk as (f' & Hf' & Hid).
    destruct (decide (l' = l)) as [->|Hll].
    - rewrite lookup_insert_eq. rewrite Hl in Hf'. injection Hf' as <-.
      by eexists.
    - rewrite lookup_insert_ne by done. by exists f'. }
  destruct (String.eqb (ID f) "__proto__"); [by apply Hold|].
  destruct (String.eqb_spec k' (ID f)) as [->|Hne]; [|by apply Hold].
  injection Hin as <-. rewrite lookup_insert_eq. by eexists.
Qed.

Lemma consistent_removed featureID σ :
  consistent σ -> consistent (removed featureID σ).
Proof.
  intros [[Hwf Hup] Hent].
  assert (Hwf' : JSObject.wf (features (this (removed featureID σ))))
    by apply JSObjectFacts.wf_delete, Hwf.
  split; [split; [done|by apply JSObjectFacts.unprotoed_delete]|].
  intros k l Hin.
  apply JSObjectFacts.elem_get in Hin; [|done]. simpl in Hin.
  rewrite JSObjectFacts.get_delete in Hin.
  destruct (String.eqb k featureID); [done|].
  by apply JSObjectFacts.get_Some_elem, Hent in Hin.
Qed.

Lemma consistent_new_Feature f σ :
  consistent σ -> consistent (snd (new_Feature f σ)).
Proof.
  intros [Hwf Hent]. split; [done|]. intros k l Hin. simpl.
  destruct (Hent k l Hin) as (f' & Hf' & Hid). exists f'. split; [|done].
  rewrite lookup_insert_ne; [done|].
  intros <-. by rewrite fresh_loc_unused in Hf'.
Qed.

(** What a removal leaves: the store as it was, or the store without an
    entry it had. *)
Lemma removeFeatureByID_state k σ :
  snd (removeFeatureByID k σ) = σ \/
  (JSObject.hasOwnProperty k (features (this σ)) = true /\
   snd (removeFeatureByID k σ) = removed k σ).
Proof.
  rewrite removeFeatureByID_eq. destruct (shadowed σ); [by left|].
  destruct (JSObject.hasOwnProperty k (features (this σ))); [by right|by left].
Qed.

Lemma removeFeature_eq v σ :
  removeFeature v σ =
  match v with
  | VUndefined | VNull => (Throw TypeError, σ)
  | VObject l =>
      removeFeatureByID
        (match heap σ !! l with
         | Some (OFeature f) => ID f
         | Some (OOther p) => default "undefined"%string (plain_ID p)
         | None => "undefined"%string
         end) σ
  | _ => removeFeatureByID "undefined" σ
  end.
Proof.
  unfold removeFeature, read_ID. rewrite !bind_run. unfold get_heap.
  by destruct v.
Qed.

Lemma removeFeature_state v σ :
  snd (removeFeature v σ) = σ \/
  exists k, JSObject.hasOwnProperty k (features (this σ)) = true /\
            snd (removeFeature v σ) = removed k σ.
Proof.
  assert (forall k, snd (removeFeatureByID k σ) = σ \/
            exists k', JSObject.hasOwnProperty k' (features (this σ)) = true /\
                       snd (removeFeatureByID k σ) = removed k' σ) as Hk.
  { intros k. destruct (removeFeatureByID_state k σ) as [?|?]; [by left|right; eauto]. }
  rewrite removeFeature_eq. destruct v; try (by left); apply Hk.
Qed.

(** A layer that is built by the constructor and changed through its
    methods stays consistent. *)
Lemma reachable_consistent σ : reachable σ -> consistent σ.
Proof.
  induction 1 as [name type group uuid h|c σ _ IH|f σ _ IH].
  - apply consistent_new.
  - destruct c as [v|v|k|l|c]; simpl.
    + rewrite addFeature_eq.
      destruct (instanceof_Feature (heap σ) v) as [[l f]|] eqn:E; [|done].
      by eapply consistent_added.
    + destruct (removeFeature_state v σ) as [->|(k & _ & ->)];
        [done | by apply consistent_removed].
    + destruct (removeFeatureByID_state k σ) as [->|[_ ->]];
        [done | by apply consistent_removed].
    + done.
    + done.
  - by apply consistent_new_Feature.
Qed.

(** [featureCount] follows [features] when a feature is added under an ID
    that has no entry yet ... *)
Lemma counted_added_new v l f σ :
  instanceof_Feature (heap σ) v = Some (l, f) ->
  ID f <> "__proto__"%string ->
  JSObject.hasOwnProperty (ID f) (features (this σ)) = false ->
  counted σ -> counted (added l f σ).
Proof.
  unfold counted. intros _ Hproto Habs Hc. simpl.
  rewrite JSObjectFacts.size_set_absent by done. lia.
Qed.

(** ... and when a feature is removed. *)
Lemma counted_removed featureID σ :
  JSObject.wf (features (this σ)) ->
  JSObject.hasOwnProperty featureID (features (this σ)) = true ->
  counted σ -> counted (removed featureID σ).
Proof.
  unfold counted. intros Hwf Hpre Hc. simpl.
  pose proof (JSObjectFacts.size_delete_present featureID _ Hwf Hpre). lia.
Qed.

(** It runs ahead of [features] when the ID already has an entry. *)
Lemma counted_added_again v l f σ :
  instanceof_Feature (heap σ) v = Some (l, f) ->
  JSObject.hasOwnProperty (ID f) (features (this σ)) = true ->
  counted σ ->
  featureCount (this (added l f σ))
  = Z.of_nat (JSObject.size (features (this (added l f σ)))) + 1.
Proof.
  unfold counted. intros _ Hpre Hc. simpl.
  rewrite JSObjectFacts.size_set_present by done. lia.
Qed.

End invariants.

(** C1.  The store reached by adding the feature [A] (id "f1") to a new
    layer twice has [featureCount] 2 and a single entry in [features]. *)
Theorem addFeature_twice_miscounts :
  let σ := snd (addFeature (VObject 1%positive) Demo.L1_A) in
  reachable σ /\
  featureCount (this σ) = 2 /\
  JSObject.size (features (this σ)) = 1%nat /\
  ~ counted σ.
Proof.
  split.
  { apply (reachable_call (CallAddFeature (VObject 1%positive))).
    apply (reachable_call (CallAddFeature (VObject 1%positive))).
    apply reachable_new. }
  split; [by vm_compute|]. split; [by vm_compute|].
  unfold counted. by vm_compute.
Qed.

(** ** Serialisation *)

Section serialisation.
Context `{FeatureClass}.
Implicit Types (σ : State) (v : value) (l : loc) (f : Feature).




(** What the two static loaders have in common: a new layer, a loading
    loop, the color taken when it is truthy. *)
Lemma on_new_load_spec {A} (g : A -> Feature) (xs : list A) (c : option string)
    (r0 : RenderLayer) (h : gmap loc object) (load : Method unit) :
  (forall σ, load σ =
     for_each xs (fun x => feature ← new_Feature (g x); addFeature feature) σ) ->
  features r0 = JSObject.empty ->
  exists r h',
    on_new r0
      (load;;
       if truthy c then r ← get_this; put_this (set_color c r) else mret tt) h
      = (Return r, h') /\
    (__id r = __id r0 /\ __type r = __type r0 /\ name r = name r0 /\
     _physicalLayer r = _physicalLayer r0) /\
    color r = (if truthy c then c else color r0) /\
    featureCount r = featureCount r0 + Z.of_nat (length xs) /\
    (forall l o, h !! l = Some o -> h' !! l = Some o) /\
    (forall x, x ∈ xs -> ID (g x) <> "__proto__"%string ->
       JSObject.hasOwnProperty (ID (g x)) (features r) = true) /\
    (forall k l, JSObject.get k (features r) = Some l ->
       exists x, x ∈ xs /\ ID (g x) = k /\
         h' !! l = Some (OFeature (set_layer (_physicalLayer r0) (g x)))) /\
    (JSObject.wf (features r) /\ JSObject.unprotoed (features r)).
Proof.
  intros Hload Hempty.
  destruct (load_spec g xs {| this := r0; heap := h |})
    as (σ' & Hrun & (Hc & Hi & Ht & Hn & Hp) & Hcount & Hheap & _ & Hin & Hget
        & Hwf & Hup).
  simpl in *.
  assert (Hget' : forall k l, JSObject.get k (features (this σ')) = Some l ->
            exists x, x ∈ xs /\ ID (g x) = k /\
              heap σ' !! l = Some (OFeature (set_layer (_physicalLayer r0) (g x)))).
  { intros k l Hk. destruct (Hget k l Hk) as [Hold|?]; [|done].
    by rewrite Hempty in Hold. }
  assert (Hwf' : JSObject.wf (features (this σ'))).
  { apply Hwf. rewrite Hempty. apply JSObjectFacts.wf_empty. }
  assert (Hup' : JSObject.unprotoed (features (this σ'))).
  { apply Hup. rewrite Hempty. apply JSObjectFacts.unprotoed_empty. }
  unfold on_new. rewrite bind_run, Hload, Hrun.
  destruct (truthy c).
  - run_method. do 2 eexists. split; [reflexivity|]. simpl. done.
  - run_method. do 2 eexists. split; [reflexivity|]. done.
Qed.

Lemma fromInterchangeV1_spec (json : RenderLayerInterchangeV1) uuid
    (h : gmap loc object) :
  exists r h',
    fromInterchangeV1 json uuid h = (Return r, h') /\
    __type r = iv1_group json /\
    name r = iv1_type json /\
    __id r = uuid /\
    _physicalLayer r = None /\
    color r = (if truthy (iv1_color json) then iv1_color json else None) /\
    featureCount r = Z.of_nat (length (iv1_features json)) /\
    (forall l o, h !! l = Some o -> h' !! l = Some o) /\
    (forall x, x ∈ iv1_features json ->
       ID (Feature_fromInterchangeV1 x) <> "__proto__"%string ->
       JSObject.hasOwnProperty (ID (Feature_fromInterchangeV1 x)) (features r) = true) /\
    (forall k l, JSObject.get k (features r) = Some l ->
       exists x, x ∈ iv1_features json /\ ID (Feature_fromInterchangeV1 x) = k /\
         h' !! l = Some (OFeature (set_layer None (Feature_fromInterchangeV1 x)))) /\
    (JSObject.wf (features r) /\ JSObject.unprotoed (features r)).
Proof.
  destruct (on_new_load_spec Feature_fromInterchangeV1 (iv1_features json)
              (iv1_color json)
              (constructor (Some (iv1_type json)) (Some (iv1_group json)) None uuid) h
              (__loadFeaturesFromInterchangeV1 (iv1_features json)))
    as (r & h' & Hrun & (Hi & Ht & Hn & Hp) & Hc & Hcount & Hrest); [done|done|].
  exists r, h'. split; [exact Hrun|].
  rewrite Hi, Ht, Hn, Hp, Hc, Hcount. simpl. simpl in Hrest.
  repeat (split; [done|]). exact Hrest.
Qed.

Lemma fromJSON_Some_spec (json : LayerJSON) (feats : JSObject.t FeatureJSON) uuid
    (h : gmap loc object) :
  json_features json = Some feats ->
  exists r h',
    fromJSON json uuid h = (Return r, h') /\
    __type r = "FLOW"%string /\
    name r = default "New Layer"%string (json_type json) /\
    __id r = uuid /\
    _physicalLayer r = None /\
    color r = (if truthy (json_color json) then json_color json else None) /\
    featureCount r = Z.of_nat (length feats) /\
    (forall l o, h !! l = Some o -> h' !! l = Some o) /\
    (forall i x, (i, x) ∈ feats ->
       ID (Feature_fromJSON x) <> "__proto__"%string ->
       JSObject.hasOwnProperty (ID (Feature_fromJSON x)) (features r) = true) /\
    (forall k l, JSObject.get k (features r) = Some l ->
       exists i x, (i, x) ∈ feats /\ ID (Feature_fromJSON x) = k /\
         h' !! l = Some (OFeature (set_layer None (Feature_fromJSON x)))) /\
    (JSObject.wf (features r) /\ JSObject.unprotoed (features r)).
Proof.
  intros Hfeats.
  destruct (on_new_load_spec (fun p : string * FeatureJSON => Feature_fromJSON (snd p))
              feats (json_color json)
              (constructor (json_type json) None None uuid) h
              (__loadFeaturesFromJSON feats))
    as (r & h' & Hrun & (Hi & Ht & Hn & Hp) & Hc & Hcount & Hheap & Hin & Hget & Hwf);
    [|done|].
  { intros σ. apply for_each_ext. by intros [i x] τ. }
  exists r, h'. split; [unfold fromJSON; by rewrite Hfeats|].
  rewrite Hi, Ht, Hn, Hp, Hc, Hcount. simpl. simpl in Hget.
  repeat (split; [done|]).
  split; [intros i x Hx; apply (Hin (i, x) Hx)|].
  split; [|done].
  intros k l Hk. destruct (Hget k l Hk) as ([i x] & Hx & Hid & Hl). by exists i, x.
Qed.

End serialisation.

(** ** Reading a layer back *)

Section loaders.
Context `{FeatureClass}.
Implicit Types (σ : State) (l : loc) (f : Feature).

(** C9.  [fromJSON(json)] throws "JSON layer has no features!"
    (MalformedInput) exactly when [json] has no [features] property.
    Otherwise it returns a layer built by putting every entry of
    [json.features] through [Feature.fromJSON] and [addFeature]: every
    entry of the layer refers to such a feature, filed under its ID; the ID
    of each such feature has an entry, unless it is "__proto__", under
    which no entry is ever made; there were as many adds as input entries;
    and [color] is [json.color] or unset, never set when [json.color] is
    missing. *)
Theorem fromJSON_spec (json : LayerJSON) uuid (h : gmap loc object) :
  ((exists e, fst (fromJSON json uuid h) = Throw e) <-> json_features json = None) /\
  (forall e, fst (fromJSON json uuid h) = Throw e ->
     e = NoFeatures /\ kind e = MalformedInput) /\
  (forall feats, json_features json = Some feats ->
     exists r h',
       fromJSON json uuid h = (Return r, h') /\
       (forall k l, JSObject.get k (features r) = Some l ->
          exists i x, (i, x) ∈ feats /\ ID (Feature_fromJSON x) = k /\
            h' !! l = Some (OFeature (set_layer None (Feature_fromJSON x)))) /\
       (forall i x, (i, x) ∈ feats ->
          ID (Feature_fromJSON x) <> "__proto__"%string ->
          JSObject.hasOwnProperty (ID (Feature_fromJSON x)) (features r) = true) /\
       JSObject.get "__proto__" (features r) = None /\
       featureCount r = Z.of_nat (length feats) /\
       color r = (if truthy (json_color json) then json_color json else None) /\
       (forall c, color r = Some c -> json_color json = Some c) /\
       (json_color json = None -> color r = None)).
Proof.
  destruct (json_features json) as [feats|] eqn:Hfeats.
  - destruct (fromJSON_Some_spec json feats uuid h Hfeats)
      as (r & h' & Hrun & _ & _ & _ & _ & Hc & Hcount & _ & Hin & Hget & _ & Hup).
    rewrite Hrun. simpl.
    split; [split; [by intros [e ?]|done]|]. split; [done|].
    intros ? [= <-]. exists r, h'.
    split; [done|]. split; [done|]. split; [done|].
    split; [by apply JSObjectFacts.unprotoed_get|]. split; [done|].
    rewrite Hc. split; [done|]. split.
    + intros c. by destruct (truthy (json_color json)).
    + intros ->. done.
  - unfold fromJSON. rewrite Hfeats. simpl.
    split; [split; [done|by exists NoFeatures]|].
    split; [by intros e [= <-]|done].
Qed.

(** C10, as the code has it.  When [json] has a [features] property,
    [fromJSON(json)] returns a layer of type "FLOW" whatever [json.type]
    is; its name is [json.type] when that is defined and "New Layer", the
    constructor's default, when it is not. *)
Theorem fromJSON_type_and_name (json : LayerJSON) feats uuid (h : gmap loc object) :
  json_features json = Some feats ->
  exists r h',
    fromJSON json uuid h = (Return r, h') /\
    type {| this := r; heap := h' |} = (Return "FLOW"%string, {| this := r; heap := h' |}) /\
    match json_type json with
    | Some t => name r = t
    | None => name r = "New Layer"%string
    end.
Proof.
  intros Hfeats.
  destruct (fromJSON_Some_spec json feats uuid h Hfeats)
    as (r & h' & Hrun & Ht & Hn & _).
  exists r, h'. split; [done|]. split.
  - unfold type. run_method. by rewrite Ht.
  - rewrite Hn. by destruct (json_type json).
Qed.


End loaders.

(** ** The methods at work on a small layer *)

Section examples.
#[local] Existing Instance Demo.types.
#[local] Existing Instance Demo.codec.

(** C3.  Reading back what [L1_A] serialises to (type "FLOW", group "0")
    gives a layer whose type is "0", the record's [group], and whose name
    is "FLOW", the record's [type]. *)
Theorem fromInterchangeV1_type_is_group :
  toInterchangeV1 Demo.L1_A = (Return Demo.json1, Demo.L1_A) /\
  exists r h',
    fromInterchangeV1 Demo.json1 "id-2" (heap Demo.L1_A) = (Return r, h') /\
    type {| this := r; heap := h' |} = (Return "0"%string, {| this := r; heap := h' |}) /\
    name r = "FLOW"%string /\
    __type r <> iv1_type Demo.json1.
Proof.
  split; [by vm_compute|].
  do 2 eexists. split; [vm_compute; reflexivity|]. by vm_compute.
Qed.


(** C10, as stated, fails on a legacy input without [type]: the layer is
    named "New Layer". *)
Lemma fromJSON_name_without_type :
  json_features Demo.legacy_untyped <> None /\
  exists r h',
    fromJSON Demo.legacy_untyped "id-3" ∅ = (Return r, h') /\
    name r = "New Layer"%string /\
    json_type Demo.legacy_untyped <> Some (name r).
Proof.
  split; [done|]. do 2 eexists. split; [vm_compute; reflexivity|]. done.
Qed.



(** C5.  A feature whose ID is "hasOwnProperty" is added to a layer: the
    call returns, and [containsFeature] of that feature then throws a
    [TypeError].  A feature whose ID is "__proto__" is added to a new
    layer: the call returns and counts it, [features] has no entry, and
    [containsFeature] of that feature is false. *)
Theorem addFeature_special_ID_not_contained :
  (instanceof_Feature (heap DemoSpecial.S_A) (VObject 4%positive)
     = Some (4%positive, DemoSpecial.H) /\
   addFeature (VObject 4%positive) DemoSpecial.S_A = (Return tt, DemoSpecial.S_AH) /\
   containsFeature (VObject 4%positive) DemoSpecial.S_AH
     = (Throw TypeError, DemoSpecial.S_AH)) /\
  (instanceof_Feature (heap DemoSpecial.S0) (VObject 5%positive)
     = Some (5%positive, DemoSpecial.P) /\
   addFeature (VObject 5%positive) DemoSpecial.S0 = (Return tt, DemoSpecial.S_P) /\
   containsFeature (VObject 5%positive) DemoSpecial.S_P
     = (Return false, DemoSpecial.S_P) /\
   JSObject.size (features (this DemoSpecial.S_P)) = 0%nat /\
   featureCount (this DemoSpecial.S_P) = 1).
Proof.
  split; repeat (split; [by vm_compute|]); by vm_compute.
Qed.

(** C6.  On the layer that holds [A] under "f1" and [H] under
    "hasOwnProperty", [removeFeatureByID] throws a [TypeError] for an ID
    that has no entry and for one that has, and removes nothing.  After
    [addFeature] of the feature with ID "__proto__" on a new layer,
    [removeFeatureByID("__proto__")] throws the missing-ID error and
    [featureCount] stays at 1. *)
Theorem removeFeatureByID_special_ID :
  (JSObject.get "f9" (features (this DemoSpecial.S_AH)) = None /\
   removeFeatureByID "f9" DemoSpecial.S_AH = (Throw TypeError, DemoSpecial.S_AH) /\
   JSObject.get "f1" (features (this DemoSpecial.S_AH)) = Some 1%positive /\
   removeFeatureByID "f1" DemoSpecial.S_AH = (Throw TypeError, DemoSpecial.S_AH)) /\
  (featureCount (this DemoSpecial.S0) = 0 /\
   addFeature (VObject 5%positive) DemoSpecial.S0 = (Return tt, DemoSpecial.S_P) /\
   removeFeatureByID "__proto__" DemoSpecial.S_P
     = (Throw FeatureIDMissing, DemoSpecial.S_P) /\
   featureCount (this DemoSpecial.S_P) = 1).
Proof.
  split; repeat (split; [by vm_compute|]); by vm_compute.
Qed.

(** C7.  On the layer that holds [A] under "f1" and [H] under
    "hasOwnProperty", [getFeature("f1")] throws a [TypeError] although the
    entry exists, and so does [getFeature] of an ID without entry. *)
Theorem getFeature_shadowed_TypeError :
  JSObject.get "f1" (features (this DemoSpecial.S_AH)) = Some 1%positive /\
  getFeature "f1" DemoSpecial.S_AH = (Throw TypeError, DemoSpecial.S_AH) /\
  JSObject.get "f9" (features (this DemoSpecial.S_AH)) = None /\
  getFeature "f9" DemoSpecial.S_AH = (Throw TypeError, DemoSpecial.S_AH) /\
  kind TypeError <> NotFound.
Proof.
  repeat (split; [by vm_compute|]). done.
Qed.


Lemma L1_safe_count : safe_count Demo.L1.
Proof. split; reflexivity. Defined.

Lemma L1_AB_safe_count : safe_count Demo.L1_AB.
Proof. split; reflexivity. Defined.

(** Adding [A] to the new layer [L1]. *)
Lemma addFeature_valid_L1 :
  instanceof_Feature (heap Demo.L1) (VObject 1%positive) = Some (1%positive, Demo.A) /\
  unshadowed Demo.L1 /\ safe_count Demo.L1 /\
  exists σ',
    addFeature (VObject 1%positive) Demo.L1 = (Return tt, σ') /\
    containsFeature (VObject 1%positive) σ' = (Return true, σ') /\
    featureCount (this σ') = 1 /\
    JSObject.get "f1" (features (this σ')) = Some 1%positive.
Proof.
  split; [reflexivity|]. split; [reflexivity|]. split; [exact L1_safe_count|].
  destruct (addFeature_valid (VObject 1%positive) 1%positive Demo.A Demo.L1 eq_refl
              ltac:(discriminate) ltac:(discriminate) eq_refl L1_safe_count)
    as (σ' & Hadd & Hhas & Hcount & Hget & _).
  exists σ'. split; [exact Hadd|]. split; [exact Hhas|].
  split; [exact Hcount | exact Hget].
Defined.

(** Removing "f1" from [L1_AB], removing an id it does not hold, removing
    [A] right after adding it to [L1], and removing from the layer that
    has an entry named "hasOwnProperty". *)
Lemma removeFeatureByID_L1_AB :
  (shadowed DemoSpecial.S_AH = true /\
   removeFeatureByID "f1" DemoSpecial.S_AH = (Throw TypeError, DemoSpecial.S_AH)) /\
  (unshadowed Demo.L1_AB /\
   JSObject.hasOwnProperty "f9" (features (this Demo.L1_AB)) = false /\
   removeFeatureByID "f9" Demo.L1_AB = (Throw FeatureIDMissing, Demo.L1_AB)) /\
  (safe_count Demo.L1_AB /\
   JSObject.hasOwnProperty "f1" (features (this Demo.L1_AB)) = true /\
   exists σ',
     removeFeatureByID "f1" Demo.L1_AB = (Return tt, σ') /\
     JSObject.get "f1" (features (this σ')) = None /\
     featureCount (this σ') = 1) /\
  (unshadowed Demo.L1 /\ safe_count Demo.L1 /\
   instanceof_Feature (heap Demo.L1) (VObject 1%positive) = Some (1%positive, Demo.A) /\
   exists σ1 σ2,
     addFeature (VObject 1%positive) Demo.L1 = (Return tt, σ1) /\
     removeFeatureByID "f1" σ1 = (Return tt, σ2) /\
     featureCount (this σ2) = 0 /\
     containsFeatureID "f1" σ2 = (Return false, σ2)).
Proof.
  split; [|split; [|split]].
  - split; [reflexivity|].
    apply (proj1 (removeFeatureByID_spec "f1" DemoSpecial.S_AH) eq_refl).
  - split; [reflexivity|]. split; [reflexivity|].
    apply (proj1 (proj2 (removeFeatureByID_spec "f9" Demo.L1_AB)) eq_refl eq_refl).
  - split; [exact L1_AB_safe_count|]. split; [reflexivity|].
    destruct (proj1 (proj2 (proj2 (removeFeatureByID_spec "f1" Demo.L1_AB)))
                eq_refl L1_AB_safe_count eq_refl)
      as (σ' & Hrun & Hgone & _ & Hcount & _).
    exists σ'. split; [exact Hrun|]. split; [exact Hgone | exact Hcount].
  - split; [reflexivity|]. split; [exact L1_safe_count|]. split; [reflexivity|].
    apply (proj2 (proj2 (proj2 (removeFeatureByID_spec "f1" Demo.L1)))
             eq_refl L1_safe_count
             (VObject 1%positive) 1%positive Demo.A eq_refl eq_refl
             ltac:(discriminate) ltac:(discriminate)).
Defined.

(** Looking up "f1" and "f9" in [L1_AB]. *)
Lemma getFeature_L1_AB :
  unshadowed Demo.L1_AB /\
  fst (getFeature "f1" Demo.L1_AB) = Return (VObject 1%positive) /\
  (JSObject.get "f9" (features (this Demo.L1_AB)) = None /\
   exists e, fst (getFeature "f9" Demo.L1_AB) = Throw e).
Proof.
  split; [reflexivity|]. split.
  - exact (proj1 (proj2 (getFeature_spec "f1" Demo.L1_AB))).
  - split; [reflexivity|].
    apply (proj2 (proj1 (proj2 (proj2 (getFeature_spec "f9" Demo.L1_AB)) eq_refl))
             eq_refl).
Defined.



(** Reading the legacy inputs. *)
Lemma fromJSON_legacy :
  (json_features Demo.legacy_bare = None /\
   exists e, fst (fromJSON Demo.legacy_bare "id-3" ∅) = Throw e) /\
  (json_features Demo.legacy1
     = Some [("f1"%string, ("f1"%string, "Channel"%string))] /\
   exists r h',
     fromJSON Demo.legacy1 "id-3" ∅ = (Return r, h') /\
     featureCount r = 1 /\
     color r = Some "#ff0000"%string).
Proof.
  split.
  - split; [reflexivity|].
    apply (proj2 (proj1 (fromJSON_spec Demo.legacy_bare "id-3" ∅)) eq_refl).
  - split; [reflexivity|].
    destruct (proj2 (proj2 (fromJSON_spec Demo.legacy1 "id-3" ∅)) _ eq_refl)
      as (r & h' & Hrun & _ & _ & _ & Hcount & Hc & _).
    exists r, h'. split; [exact Hrun|]. split; [exact Hcount | exact Hc].
Defined.

Lemma fromJSON_type_and_name_legacy :
  json_features Demo.legacy1
    = Some [("f1"%string, ("f1"%string, "Channel"%string))] /\
  exists r h',
    fromJSON Demo.legacy1 "id-3" ∅ = (Return r, h') /\
    type {| this := r; heap := h' |} = (Return "FLOW"%string, {| this := r; heap := h' |}) /\
    name r = "CONTROL"%string.
Proof.
  split; [reflexivity|].
  apply (fromJSON_type_and_name Demo.legacy1 _ "id-3" ∅ eq_refl).
Defined.


End examples.

(** ** Further properties of the store operations *)

Section more_operations.
Context `{FeatureClass}.
Implicit Types (σ : State) (v : value) (l : loc) (f : Feature).

Lemma instanceof_Feature_added v l f v' l' f' σ :
  instanceof_Feature (heap σ) v = Some (l, f) ->
  instanceof_Feature (heap σ) v' = Some (l', f') ->
  exists f'', instanceof_Feature (heap (added l f σ)) v' = Some (l', f'') /\
              ID f'' = ID f'.
Proof.
  intros [_ Hl]%instanceof_Feature_lookup [-> Hl']%instanceof_Feature_lookup.
  simpl. destruct (decide (l' = l)) as [->|Hne].
  - rewrite lookup_insert_eq. eexists. split; [done|].
    rewrite Hl in Hl'. by injection Hl' as <-.
  - rewrite lookup_insert_ne by done. rewrite Hl'. by eexists.
Qed.

(** X1.  Membership goes by ID, not by object: two features with the same
    ID get the same outcome from [containsFeature], which is the outcome of
    [containsFeatureID] for that ID.  So once one of them is added, the
    other is reported as contained, provided the ID is neither "__proto__"
    nor "hasOwnProperty" and no entry is named "hasOwnProperty". *)
Theorem containsFeature_by_ID v1 l1 f1 v2 l2 f2 σ :
  instanceof_Feature (heap σ) v1 = Some (l1, f1) ->
  instanceof_Feature (heap σ) v2 = Some (l2, f2) ->
  ID f1 = ID f2 ->
  containsFeature v1 σ = containsFeature v2 σ /\
  containsFeature v1 σ = containsFeatureID (ID f1) σ /\
  (unshadowed σ ->
   ID f1 <> "__proto__"%string -> ID f1 <> "hasOwnProperty"%string ->
   containsFeature v2 (snd (addFeature v1 σ))
   = (Return true, snd (addFeature v1 σ))).
Proof.
  intros H1 H2 Hid.
  split; [by rewrite !containsFeature_eq, H1, H2, Hid|].
  split; [by rewrite containsFeature_eq, containsFeatureID_eq, H1|].
  intros Hsh Hproto Hown.
  rewrite addFeature_eq, H1. simpl snd. rewrite containsFeature_eq.
  destruct (instanceof_Feature_added v1 l1 f1 v2 l2 f2 σ H1 H2) as (f & -> & Hf).
  rewrite shadowed_added, Hsh by done. simpl. unfold JSObject.hasOwnProperty.
  by rewrite Hf, <- Hid, JSObjectFacts.get_set_eq.
Qed.

(** X2.  [removeFeature(feature)] is [removeFeatureByID] of the feature's
    ID.  On a store without an entry named "hasOwnProperty" it throws
    (NotFound) and changes nothing when that ID has no entry, and otherwise
    removes the entry filed under the ID, whichever object it refers to,
    and takes one off [featureCount] (taken in the exact range); the heap
    is untouched. *)
Theorem removeFeature_by_ID v l f σ :
  instanceof_Feature (heap σ) v = Some (l, f) ->
  removeFeature v σ = removeFeatureByID (ID f) σ /\
  (unshadowed σ ->
   JSObject.get (ID f) (features (this σ)) = None ->
     removeFeature v σ = (Throw FeatureIDMissing, σ)) /\
  (unshadowed σ -> safe_count σ ->
   forall l0, JSObject.get (ID f) (features (this σ)) = Some l0 ->
     exists σ',
       removeFeature v σ = (Return tt, σ') /\
       JSObject.get (ID f) (features (this σ')) = None /\
       featureCount (this σ') = featureCount (this σ) - 1 /\
       heap σ' = heap σ).
Proof.
  intros Hv.
  assert (Heq : removeFeature v σ = removeFeatureByID (ID f) σ).
  { rewrite removeFeature_eq.
    apply instanceof_Feature_lookup in Hv as [-> Hl]. by rewrite Hl. }
  split; [done|]. rewrite Heq, removeFeatureByID_eq.
  unfold JSObject.hasOwnProperty. split.
  - by intros -> ->.
  - intros -> _ l0 ->. exists (removed (ID f) σ). split; [done|].
    split; [apply JSObjectFacts.get_delete_eq | done].
Qed.

(** X3.  [__ensureFeatureExists] never changes anything.  A value that is
    not a feature is rejected before any entry is looked for, with the
    "is not a Feature" error or, when the value has no string conversion,
    a [TypeError].  For a feature it throws a [TypeError] when an entry is
    named "hasOwnProperty", else "Layer does not contain the specified
    feature!" (NotFound) when the feature's ID has no entry, and returns
    otherwise. *)
Theorem ensureFeatureExists_outcome v σ :
  snd (__ensureFeatureExists v σ) = σ /\
  fst (__ensureFeatureExists v σ) =
    match instanceof_Feature (heap σ) v with
    | None => Throw (if has_string (heap σ) v then NotAFeature v else TypeError)
    | Some (_, f) =>
        if shadowed σ then Throw TypeError
        else if JSObject.hasOwnProperty (ID f) (features (this σ))
             then Return tt else Throw FeatureMissing
    end.
Proof.
  unfold __ensureFeatureExists. rewrite bind_run, containsFeature_eq.
  destruct (instanceof_Feature (heap σ) v) as [[l f]|]; [|done].
  destruct (shadowed σ); [done|].
  by destruct (JSObject.hasOwnProperty (ID f) (features (this σ))).
Qed.

(** X4.  A new layer is empty whatever it is constructed with: no ID is
    contained, [getFeature] and [removeFeatureByID] throw for every ID,
    [featureCount] is 0, and it serialises to an empty feature array with
    no color.  The [group] argument changes nothing. *)
Theorem constructor_empty name type group uuid (h : gmap loc object) :
  let σ := {| this := constructor name type group uuid; heap := h |} in
  (forall group', constructor name type group' uuid = this σ) /\
  (forall k, containsFeatureID k σ = (Return false, σ)) /\
  (forall k, getFeature k σ = (Throw FeatureIDMissing, σ)) /\
  (forall k, removeFeatureByID k σ = (Throw FeatureIDMissing, σ)) /\
  featureCount (this σ) = 0 /\
  toInterchangeV1 σ =
    (Return {| iv1_id := uuid;
               iv1_type := default "FLOW"%string type;
               iv1_group := "0";
               iv1_features := [];
               iv1_color := None |}, σ).
Proof.
  simpl. split; [done|]. split; [done|].
  split; [intros k; by rewrite getFeature_eq|].
  split; [intros k; by rewrite removeFeatureByID_eq|]. done.
Qed.

(** X5.  The physical layer that was set is the one read back.  Setting
    it touches neither [features] nor any feature: features added before
    keep the layer they were given; a feature added afterwards gets the
    new one. *)
Theorem physicalLayer_set_get (pl : option loc) σ :
  let σ1 := snd (physicalLayer_set pl σ) in
  physicalLayer σ1 = (Return pl, σ1) /\
  features (this σ1) = features (this σ) /\
  featureCount (this σ1) = featureCount (this σ) /\
  heap σ1 = heap σ /\
  (forall v l f, instanceof_Feature (heap σ) v = Some (l, f) ->
     heap (snd (addFeature v σ1)) !! l = Some (OFeature (set_layer pl f))).
Proof.
  simpl. repeat (split; [done|]).
  intros v l f Hv. rewrite addFeature_eq. simpl. rewrite Hv. simpl.
  by rewrite lookup_insert_eq.
Qed.

(** X6.  [toFeatureLayerJSON()] carries the [color] and [features] of
    [toInterchangeV1()], and throws when it throws. *)
Theorem toFeatureLayerJSON_agrees σ :
  toFeatureLayerJSON σ =
  match toInterchangeV1 σ with
  | (Return out, σ') =>
      (Return {| fl_color := iv1_color out; fl_features := iv1_features out |}, σ')
  | (Throw e, σ') => (Throw e, σ')
  end.
Proof.
  unfold toFeatureLayerJSON, toInterchangeV1. rewrite !bind_run.
  unfold get_this. rewrite !bind_run.
  by destruct (__featuresInterchangeV1 σ) as [[fs|e] σ'].
Qed.

Lemma fold_each_state {A B} (xs : list A) (body : B -> A -> Method B) (acc : B) σ :
  (forall b x τ, snd (body b x τ) = τ) ->
  snd (fold_each xs body acc σ) = σ.
Proof.
  intros Hbody. revert acc. induction xs as [|x xs IH]; intros acc; [done|].
  simpl. rewrite bind_run. specialize (Hbody acc x σ).
  destruct (body acc x σ) as [[b|e] τ]; simpl in Hbody; subst τ; [apply IH|done].
Qed.

Lemma deref_state l σ : snd (deref l σ) = σ.
Proof. rewrite deref_eq. by destruct (heap σ !! l) as [[f|]|]. Qed.

(** X7.  The queries and the serialisers only read: whatever they return
    or throw, the layer and the heap are as before. *)
Theorem reads_leave_state σ :
  (forall v, snd (containsFeature v σ) = σ) /\
  (forall k, snd (containsFeatureID k σ) = σ) /\
  (forall k, snd (__ensureFeatureIDExists k σ) = σ) /\
  snd (getAllFeaturesFromLayer σ) = σ /\
  snd (physicalLayer σ) = σ /\ snd (type σ) = σ /\ snd (id σ) = σ /\
  snd (__featuresToJSON σ) = σ /\
  snd (__featuresInterchangeV1 σ) = σ /\
  snd (toFeatureLayerJSON σ) = σ /\
  snd (toInterchangeV1 σ) = σ.
Proof.
  assert (Hj : snd (__featuresToJSON σ) = σ).
  { unfold __featuresToJSON. rewrite bind_run. unfold get_this.
    apply fold_each_state. intros b [i l] τ. rewrite bind_run.
    pose proof (deref_state l τ) as Hd.
    by destruct (deref l τ) as [[f|e] τ']. }
  assert (Hi : snd (__featuresInterchangeV1 σ) = σ).
  { unfold __featuresInterchangeV1. rewrite bind_run. unfold get_this.
    apply fold_each_state. intros b [i l] τ. rewrite bind_run.
    pose proof (deref_state l τ) as Hd.
    by destruct (deref l τ) as [[f|e] τ']. }
  split.
  { intros v. rewrite containsFeature_eq.
    destruct (instanceof_Feature (heap σ) v) as [[l f]|]; [|done].
    by destruct (shadowed σ). }
  split; [intros k; rewrite containsFeatureID_eq; by destruct (shadowed σ)|].
  split.
  { intros k. rewrite __ensureFeatureIDExists_eq. destruct (shadowed σ); [done|].
    by destruct (JSObject.hasOwnProperty k (features (this σ))). }
  repeat (split; [done|]). split.
  - unfold toFeatureLayerJSON. rewrite bind_run. unfold get_this.
    rewrite bind_run. by destruct (__featuresInterchangeV1 σ) as [[fs|e] τ].
  - unfold toInterchangeV1. rewrite bind_run. unfold get_this.
    rewrite bind_run. by destruct (__featuresInterchangeV1 σ) as [[fs|e] τ].
Qed.

(** X8.  For a feature [f] at [l], [addFeature] touches only the entry
    under [f]'s ID and the object at [l]: every other entry and every other
    object is as before, and so are the layer's id, type, name, color and
    physical layer.  [features] gains an entry exactly when the ID had none
    and is not "__proto__". *)
Theorem addFeature_frame v l f σ :
  instanceof_Feature (heap σ) v = Some (l, f) ->
  let σ' := snd (addFeature v σ) in
  (forall k, k <> ID f ->
     JSObject.get k (features (this σ')) = JSObject.get k (features (this σ))) /\
  (forall l', l' <> l -> heap σ' !! l' = heap σ !! l') /\
  JSObject.size (features (this σ')) =
    (if JSObject.hasOwnProperty (ID f) (features (this σ))
        || String.eqb (ID f) "__proto__"
     then JSObject.size (features (this σ))
     else S (JSObject.size (features (this σ)))) /\
  (__id (this σ') = __id (this σ) /\ __type (this σ') = __type (this σ) /\
   name (this σ') = name (this σ) /\ color (this σ') = color (this σ) /\
   _physicalLayer (this σ') = _physicalLayer (this σ)).
Proof.
  intros Hv. rewrite addFeature_eq, Hv. simpl.
  split; [intros k Hk; by apply JSObjectFacts.get_set_ne|].
  split; [intros l' Hl'; by rewrite lookup_insert_ne|].
  split; [apply JSObjectFacts.size_set | done].
Qed.

(** X9.  Looking up after a change, on a store without an entry named
    "hasOwnProperty" and for a feature whose ID is neither "__proto__" nor
    "hasOwnProperty": right after [addFeature] of the feature at [l],
    [getFeature] of its ID returns [l]; right after [removeFeatureByID] of
    that ID, [getFeature] of it throws (NotFound); in both cases
    [getFeature] of any other ID answers as before. *)
Theorem getFeature_after_change v l f σ :
  instanceof_Feature (heap σ) v = Some (l, f) ->
  unshadowed σ ->
  ID f <> "__proto__"%string -> ID f <> "hasOwnProperty"%string ->
  let σ1 := snd (addFeature v σ) in
  let σ2 := snd (removeFeatureByID (ID f) σ1) in
  getFeature (ID f) σ1 = (Return (VObject l), σ1) /\
  (forall k, k <> ID f -> fst (getFeature k σ1) = fst (getFeature k σ)) /\
  getFeature (ID f) σ2 = (Throw FeatureIDMissing, σ2) /\
  (forall k, k <> ID f -> fst (getFeature k σ2) = fst (getFeature k σ)).
Proof.
  intros Hv Hsh Hproto Hown. rewrite addFeature_eq, Hv. simpl.
  assert (Hsh1 : shadowed (added l f σ) = false)
    by (by rewrite shadowed_added).
  rewrite removeFeatureByID_eq, Hsh1. simpl.
  unfold JSObject.hasOwnProperty at 1 2 3. rewrite JSObjectFacts.get_set_eq by done.
  simpl.
  assert (Hsh2 : shadowed (removed (ID f) (added l f σ)) = false).
  { unfold shadowed, JSObject.hasOwnProperty. simpl.
    rewrite JSObjectFacts.get_delete_ne, JSObjectFacts.get_set_ne by done.
    exact Hsh. }
  split.
  { rewrite getFeature_eq, Hsh1. simpl. by rewrite JSObjectFacts.get_set_eq. }
  split.
  { intros k Hk. rewrite !getFeature_eq, Hsh1, Hsh. simpl.
    rewrite JSObjectFacts.get_set_ne by done.
    by destruct (JSObject.get k (features (this σ))). }
  split.
  { rewrite getFeature_eq, Hsh2. simpl. by rewrite JSObjectFacts.get_delete_eq. }
  intros k Hk. rewrite !getFeature_eq, Hsh2, Hsh. simpl.
  rewrite JSObjectFacts.get_delete_ne, JSObjectFacts.get_set_ne by done.
  by destruct (JSObject.get k (features (this σ))).
Qed.

(** X10.  Whatever the first [removeFeatureByID(id)] did, a second one
    right after it throws and changes nothing: the missing-ID error
    (NotFound), or a [TypeError] when an entry is named
    "hasOwnProperty". *)
Theorem removeFeatureByID_twice featureID σ :
  let σ1 := snd (removeFeatureByID featureID σ) in
  removeFeatureByID featureID σ1
  = (Throw (if shadowed σ then TypeError else FeatureIDMissing), σ1).
Proof.
  simpl. rewrite (removeFeatureByID_eq featureID σ).
  destruct (shadowed σ) eqn:Hsh; simpl.
  { by rewrite removeFeatureByID_eq, Hsh. }
  destruct (JSObject.hasOwnProperty featureID (features (this σ))) eqn:E; simpl.
  - rewrite removeFeatureByID_eq.
    assert (shadowed (removed featureID σ) = false) as ->.
    { unfold shadowed, JSObject.hasOwnProperty in *. simpl.
      rewrite JSObjectFacts.get_delete.
      by destruct (String.eqb "hasOwnProperty" featureID). }
    simpl. unfold JSObject.hasOwnProperty.
    by rewrite JSObjectFacts.get_delete_eq.
  - by rewrite removeFeatureByID_eq, Hsh, E.
Qed.

(** X11.  No call changes the layer's id, type or name. *)
Theorem run_keeps_identity (c : call) σ :
  let σ' := snd (run c σ) in
  __id (this σ') = __id (this σ) /\
  __type (this σ') = __type (this σ) /\
  name (this σ') = name (this σ).
Proof.
  destruct c as [v|v|k|l|c]; simpl.
  - rewrite addFeature_eq.
    by destruct (instanceof_Feature (heap σ) v) as [[l f]|].
  - by destruct (removeFeature_state v σ) as [->|(k & _ & ->)].
  - by destruct (removeFeatureByID_state k σ) as [->|[_ ->]].
  - done.
  - done.
Qed.

Lemma size_le_removed k σ :
  JSObject.wf (features (this σ)) ->
  JSObject.hasOwnProperty k (features (this σ)) = true ->
  (Z.of_nat (JSObject.size (features (this σ))) <= featureCount (this σ))%Z ->
  (Z.of_nat (JSObject.size (features (this (removed k σ))))
   <= featureCount (this (removed k σ)))%Z.
Proof.
  intros Hwf E Hle. simpl.
  pose proof (JSObjectFacts.size_delete_present k _ Hwf E). lia.
Qed.

(** X12.  In every state a layer can reach from its construction, each
    key of [features] names one entry, each entry is a feature filed under
    its own ID, and [featureCount] is at least the number of entries. *)
Theorem reachable_invariant σ :
  reachable σ ->
  consistent σ /\
  (Z.of_nat (JSObject.size (features (this σ))) <= featureCount (this σ))%Z.
Proof.
  intros Hr. split; [by apply reachable_consistent|].
  induction Hr as [name type group uuid h|c σ Hr IH|f σ Hr IH].
  - done.
  - pose proof (reachable_consistent σ Hr) as [[Hwf _] _].
    destruct c as [v|v|k|l|c]; simpl.
    + rewrite addFeature_eq.
      destruct (instanceof_Feature (heap σ) v) as [[l f]|]; [|done]. simpl.
      rewrite JSObjectFacts.size_set.
      destruct (JSObject.hasOwnProperty (ID f) (features (this σ))
                || String.eqb (ID f) "__proto__"); lia.
    + destruct (removeFeature_state v σ) as [->|(k & Hk & ->)];
        [done | by apply size_le_removed].
    + destruct (removeFeatureByID_state k σ) as [->|[Hk ->]];
        [done | by apply size_le_removed].
    + done.
    + done.
  - done.
Qed.

Lemma reachable_distinct_reachable σ : reachable_distinct σ -> reachable σ.
Proof.
  induction 1; [apply reachable_new | by apply reachable_call
               | by apply reachable_new_Feature].
Qed.

(** X13.  As long as no feature is added under an ID that already has an
    entry or under the ID "__proto__", [featureCount] is the number of
    entries of [features]. *)
Theorem reachable_distinct_counted σ :
  reachable_distinct σ ->
  featureCount (this σ) = Z.of_nat (JSObject.size (features (this σ))).
Proof.
  intros Hr. change (counted σ).
  induction Hr as [name type group uuid h|c σ Hr IH Hov|f σ Hr IH].
  - done.
  - pose proof (reachable_consistent σ (reachable_distinct_reachable σ Hr))
      as [[Hwf _] _].
    destruct c as [v|v|k|l|c]; simpl in *.
    + rewrite addFeature_eq.
      destruct (instanceof_Feature (heap σ) v) as [[l f]|] eqn:E; [|done].
      apply orb_false_iff in Hov as [Habs Hproto].
      eapply counted_added_new; [done| |done|done].
      by destruct (String.eqb_spec (ID f) "__proto__").
    + destruct (removeFeature_state v σ) as [->|(k & Hk & ->)];
        [done | by apply counted_removed].
    + destruct (removeFeatureByID_state k σ) as [->|[Hk ->]];
        [done | by apply counted_removed].
    + done.
    + done.
  - done.
Qed.

End more_operations.

(** ** Further properties of the serialisers and loaders *)

Section more_serialisation.
Context `{FeatureClass}.
Implicit Types (σ : State) (v : value) (l : loc) (f : Feature).



Lemma same_elements_length (l1 l2 : list string) :
  NoDup l1 -> (forall x, x ∈ l1 <-> x ∈ l2) ->
  (length l1 <= length l2)%nat /\ (length l1 = length l2 <-> NoDup l2).
Proof.
  intros Hnd Hel.
  assert (Hsub : l1 ⊆+ l2) by (apply NoDup_submseteq; [done|]; intros x; apply Hel).
  split; [by apply submseteq_length|]. split.
  - intros Hlen. rewrite <- (submseteq_length_Permutation l1 l2); [done|done|lia].
  - intros Hnd2.
    assert (l2 ⊆+ l1) by (apply NoDup_submseteq; [done|]; intros x; apply Hel).
    apply Nat.le_antisymm; by apply submseteq_length.
Qed.

(** A loaded layer has one entry per distinct ID among the loaded
    features, "__proto__" apart. *)
Lemma load_count {A} (g : A -> Feature) (xs : list A) (r : RenderLayer) :
  JSObject.wf (features r) ->
  JSObject.unprotoed (features r) ->
  (forall x, x ∈ xs -> ID (g x) <> "__proto__"%string ->
     JSObject.hasOwnProperty (ID (g x)) (features r) = true) ->
  (forall k l, JSObject.get k (features r) = Some l -> exists x, x ∈ xs /\ ID (g x) = k) ->
  (JSObject.size (features r) <= length xs)%nat /\
  (JSObject.size (features r) = length xs <->
   NoDup (map (fun x => ID (g x)) xs) /\
   "__proto__"%string ∉ map (fun x => ID (g x)) xs).
Proof.
  intros Hwf Hup Hin Hget.
  set (ids := map (fun x => ID (g x)) xs).
  assert (Hlen : length ids = length xs) by apply length_map.
  assert (Hsize : JSObject.size (features r) = length (JSObject.keys (features r)))
    by (symmetry; apply length_map).
  assert (Hsub : forall k, k ∈ JSObject.keys (features r) -> k ∈ ids).
  { intros k Hk. destruct (JSObject.get k (features r)) as [l|] eqn:E.
    - destruct (Hget k l E) as (x & Hx & <-).
      apply list_elem_of_fmap. by exists x.
    - by apply JSObjectFacts.get_None_keys in E. }
  assert (Hsup : forall k, k ∈ ids -> k <> "__proto__"%string ->
            k ∈ JSObject.keys (features r)).
  { intros k (x & -> & Hx)%list_elem_of_fmap Hk.
    specialize (Hin x Hx Hk).
    apply JSObjectFacts.hasOwnProperty_true in Hin as [l Hl].
    destruct (decide (ID (g x) ∈ JSObject.keys (features r))) as [|Hn]; [done|].
    apply JSObjectFacts.get_None_keys in Hn. congruence. }
  rewrite Hsize, <- Hlen.
  destruct (decide ("__proto__"%string ∈ ids)) as [Hp|Hp].
  - assert (("__proto__"%string :: JSObject.keys (features r)) ⊆+ ids) as Hlt.
    { apply NoDup_submseteq; [by apply NoDup_cons|].
      intros k [->|Hk]%elem_of_cons; [done|by apply Hsub]. }
    apply submseteq_length in Hlt. simpl in Hlt.
    split; [lia|]. split; [lia|by intros [_ ?]].
  - destruct (same_elements_length (JSObject.keys (features r)) ids Hwf) as [Hle Hiff].
    { intros k. split; [apply Hsub|]. intros Hk. apply Hsup; [done|].
      by intros ->. }
    split; [done|]. rewrite Hiff. tauto.
Qed.

(** X15.  [fromInterchangeV1] always returns.  [featureCount] of the new
    layer is the length of [json.features]; it is the number of entries
    exactly when the deserialised features have pairwise distinct IDs, none
    of them "__proto__": a repeated ID is counted again but overwrites, and
    no entry is made under "__proto__".  Every entry refers to a feature
    with that ID and no physical layer, and objects that were on the heap
    are untouched. *)
Theorem fromInterchangeV1_count (json : RenderLayerInterchangeV1) uuid
    (h : gmap loc object) :
  exists r h',
    fromInterchangeV1 json uuid h = (Return r, h') /\
    featureCount r = Z.of_nat (length (iv1_features json)) /\
    (JSObject.size (features r) <= length (iv1_features json))%nat /\
    (featureCount r = Z.of_nat (JSObject.size (features r)) <->
     NoDup (map (fun x => ID (Feature_fromInterchangeV1 x)) (iv1_features json)) /\
     "__proto__"%string
       ∉ map (fun x => ID (Feature_fromInterchangeV1 x)) (iv1_features json)) /\
    (forall k l, JSObject.get k (features r) = Some l ->
       exists f, h' !! l = Some (OFeature f) /\ ID f = k /\ layer f = None) /\
    (forall l o, h !! l = Some o -> h' !! l = Some o).
Proof.
  destruct (fromInterchangeV1_spec json uuid h)
    as (r & h' & Hrun & _ & _ & _ & _ & _ & Hcount & Hheap & Hin & Hget & Hwf & Hup).
  destruct (load_count Feature_fromInterchangeV1 (iv1_features json) r Hwf Hup Hin)
    as [Hle Hiff].
  { intros k l Hk. destruct (Hget k l Hk) as (x & ? & ? & _). by exists x. }
  exists r, h'. split; [done|]. split; [done|]. split; [done|].
  split; [rewrite Hcount, <- Hiff; lia|]. split; [|done].
  intros k l Hk. destruct (Hget k l Hk) as (x & _ & Hid & Hl).
  eexists. split; [exact Hl|]. done.
Qed.

(** X16.  The same for [fromJSON] on an input that has [features]:
    [featureCount] is the number of entries of [json.features], and it is
    the number of entries of the new layer exactly when the deserialised
    features have pairwise distinct IDs, none of them "__proto__", whatever
    keys they were filed under in the input. *)
Theorem fromJSON_count (json : LayerJSON) feats uuid (h : gmap loc object) :
  json_features json = Some feats ->
  exists r h',
    fromJSON json uuid h = (Return r, h') /\
    featureCount r = Z.of_nat (length feats) /\
    (JSObject.size (features r) <= length feats)%nat /\
    (featureCount r = Z.of_nat (JSObject.size (features r)) <->
     NoDup (map (fun p => ID (Feature_fromJSON (snd p))) feats) /\
     "__proto__"%string ∉ map (fun p => ID (Feature_fromJSON (snd p))) feats) /\
    (forall k l, JSObject.get k (features r) = Some l ->
       exists f, h' !! l = Some (OFeature f) /\ ID f = k /\ layer f = None) /\
    (forall l o, h !! l = Some o -> h' !! l = Some o).
Proof.
  intros Hfeats.
  destruct (fromJSON_Some_spec json feats uuid h Hfeats)
    as (r & h' & Hrun & _ & _ & _ & _ & _ & Hcount & Hheap & Hin & Hget & Hwf & Hup).
  destruct (load_count (fun p : string * FeatureJSON => Feature_fromJSON (snd p))
              feats r Hwf Hup) as [Hle Hiff].
  { intros [i x] Hx. by apply (Hin i x). }
  { intros k l Hk. destruct (Hget k l Hk) as (i & x & ? & ? & _). by exists (i, x). }
  exists r, h'. split; [done|]. split; [done|]. split; [done|].
  split; [rewrite Hcount, <- Hiff; lia|]. split; [|done].
  intros k l Hk. destruct (Hget k l Hk) as (i & x & _ & Hid & Hl).
  eexists. split; [exact Hl|]. done.
Qed.



End more_serialisation.

(** ** The further properties at work *)

Section more_examples.
#[local] Existing Instance Demo.types.
#[local] Existing Instance Demo.codec.

Lemma L1_AA_reachable : reachable DemoMore.L1_AA.
Proof.
  apply (reachable_call (CallAddFeature (VObject 1%positive)) Demo.L1_A).
  apply (reachable_call (CallAddFeature (VObject 1%positive)) Demo.L1).
  apply reachable_new.
Defined.

(** [A] and [A'] share the id "f1": with [A] added to [K1], [A'] is
    reported as contained. *)
Lemma containsFeature_by_ID_K1 :
  instanceof_Feature (heap DemoMore.K1) (VObject 1%positive)
    = Some (1%positive, Demo.A) /\
  instanceof_Feature (heap DemoMore.K1) (VObject 3%positive)
    = Some (3%positive, DemoMore.A') /\
  ID Demo.A = ID DemoMore.A' /\
  unshadowed DemoMore.K1 /\
  containsFeature (VObject 1%positive) DemoMore.K1
    = containsFeature (VObject 3%positive) DemoMore.K1 /\
  containsFeature (VObject 3%positive) DemoMore.K1_A
    = (Return true, DemoMore.K1_A).
Proof.
  split; [reflexivity|]. split; [reflexivity|]. split; [reflexivity|].
  split; [reflexivity|].
  destruct (containsFeature_by_ID (VObject 1%positive) 1%positive Demo.A
              (VObject 3%positive) 3%positive DemoMore.A' DemoMore.K1
              eq_refl eq_refl eq_refl) as (Hsame & _ & Hafter).
  split; [exact Hsame|].
  exact (Hafter eq_refl ltac:(discriminate) ltac:(discriminate)).
Defined.

(** [removeFeature(A')] on the layer that holds [A]. *)
Lemma removeFeature_by_ID_K1_A :
  instanceof_Feature (heap DemoMore.K1_A) (VObject 3%positive)
    = Some (3%positive, DemoMore.A') /\
  JSObject.get "f1" (features (this DemoMore.K1_A)) = Some 1%positive /\
  unshadowed DemoMore.K1_A /\ safe_count DemoMore.K1_A /\
  exists σ',
    removeFeature (VObject 3%positive) DemoMore.K1_A = (Return tt, σ') /\
    JSObject.get "f1" (features (this σ')) = None /\
    featureCount (this σ') = 0.
Proof.
  split; [reflexivity|]. split; [reflexivity|]. split; [reflexivity|].
  split; [split; reflexivity|].
  destruct (proj2 (proj2 (removeFeature_by_ID (VObject 3%positive) 3%positive
                            DemoMore.A' DemoMore.K1_A eq_refl))
              eq_refl (conj eq_refl eq_refl) 1%positive eq_refl)
    as (σ' & Hrun & Hgone & Hcount & _).
  exists σ'. split; [exact Hrun|]. split; [exact Hgone | exact Hcount].
Defined.

(** Adding [B] to the layer that holds [A]. *)
Lemma addFeature_frame_L1_A :
  instanceof_Feature (heap Demo.L1_A) (VObject 2%positive)
    = Some (2%positive, Demo.B) /\
  JSObject.get "f1" (features (this Demo.L1_AB)) = Some 1%positive /\
  JSObject.size (features (this Demo.L1_AB)) = 2%nat.
Proof.
  split; [reflexivity|].
  destruct (addFeature_frame (VObject 2%positive) 2%positive Demo.B Demo.L1_A eq_refl)
    as (Hother & _ & Hsize & _).
  split; [exact (Hother "f1"%string ltac:(discriminate)) | exact Hsize].
Defined.

(** Adding [A] to [L1], looking it up, removing it, looking it up again. *)
Lemma getFeature_after_change_L1 :
  instanceof_Feature (heap Demo.L1) (VObject 1%positive)
    = Some (1%positive, Demo.A) /\
  unshadowed Demo.L1 /\
  getFeature "f1" Demo.L1_A = (Return (VObject 1%positive), Demo.L1_A) /\
  fst (getFeature "f1" (snd (removeFeatureByID "f1" Demo.L1_A)))
    = Throw FeatureIDMissing.
Proof.
  split; [reflexivity|]. split; [reflexivity|].
  destruct (getFeature_after_change (VObject 1%positive) 1%positive Demo.A Demo.L1
              eq_refl eq_refl ltac:(discriminate) ltac:(discriminate))
    as (Hget & _ & Hgone & _).
  split; [exact Hget | exact (f_equal fst Hgone)].
Defined.

(** The layer with [A] added twice: consistent, one entry, counted twice. *)
Lemma reachable_invariant_L1_AA :
  reachable DemoMore.L1_AA /\
  consistent DemoMore.L1_AA /\
  (Z.of_nat (JSObject.size (features (this DemoMore.L1_AA)))
   <= featureCount (this DemoMore.L1_AA))%Z.
Proof.
  split; [exact L1_AA_reachable|].
  exact (reachable_invariant DemoMore.L1_AA L1_AA_reachable).
Defined.

(** [A] then [B]: no ID is added twice. *)
Lemma reachable_distinct_counted_L1_AB :
  reachable_distinct Demo.L1_AB /\
  featureCount (this Demo.L1_AB)
  = Z.of_nat (JSObject.size (features (this Demo.L1_AB))).
Proof.
  assert (Hr : reachable_distinct Demo.L1_AB).
  { apply (distinct_call (CallAddFeature (VObject 2%positive)) Demo.L1_A);
      [|reflexivity].
    apply (distinct_call (CallAddFeature (VObject 1%positive)) Demo.L1);
      [|reflexivity].
    apply distinct_new. }
  split; [exact Hr | exact (reachable_distinct_counted Demo.L1_AB Hr)].
Defined.


(** Loading the legacy input with one feature. *)
Lemma fromJSON_count_legacy1 :
  json_features Demo.legacy1
    = Some [("f1"%string, ("f1"%string, "Channel"%string))] /\
  exists r h',
    fromJSON Demo.legacy1 "id-3" ∅ = (Return r, h') /\
    featureCount r = 1 /\
    (JSObject.size (features r) <= 1)%nat.
Proof.
  split; [reflexivity|].
  destruct (@fromJSON_count Demo.types Demo.codec Demo.legacy1 _ "id-3" ∅ eq_refl)
    as (r & h' & Hrun & Hcount & Hsize & _).
  exists r, h'. split; [exact Hrun|]. split; [exact Hcount | exact Hsize].
Defined.


End more_examples.
